(** * A shallow embedding of the docstore worker (src/worker.js)

    The worker is a small HTTP middleware: it authenticates a request with a
    static bearer token, maps the logical document path onto a path of the
    backing repository and talks to the content API of the Git host.

    Data model of the embedding.
    - A JavaScript string is modelled by the sequence of its Unicode code
      points ([jstring]); ASCII literals of the source are written
      [js "..."].  Strings with unpaired surrogates are outside the model.
    - A JSON document is a value of [json]; a JavaScript value that may be
      [undefined] is an [option json].  An object keeps its fields in
      insertion order, as [JSON.stringify] prints them.  A number is kept as
      the text [String] gives for it, which is all the worker observes of a
      number: it prints it or tests it for zero.
    - The backing store is a function from the calls issued so far and the
      current call to a reply; the computation threads the log of issued
      calls, and an exception keeps the log (calls already made stay made).
    - The text of a reply is taken after the [JSON.parse] step of
      [githubRequest]: an empty text is [JNull], a text that does not parse
      is the string itself.  The body of a call is the object handed to
      [JSON.stringify], with the fields whose value is [undefined] removed. *)

From Stdlib Require Import List NArith ZArith Bool String Ascii Lia.
Import ListNotations.

Local Open Scope N_scope.
Local Open Scope list_scope.
#[local] Set Warnings "-register-all".

(** ** Strings *)

Module JsString.

Definition jstring := list N.

(** An ASCII literal of the source. *)
Definition js (s : string) : jstring :=
  map N_of_ascii (list_ascii_of_string s).

Fixpoint eqb (a b : jstring) : bool :=
  match a, b with
  | [], [] => true
  | x :: a', y :: b' => (x =? y) && eqb a' b'
  | _, _ => false
  end.

(** [s.startsWith(p)] *)
Fixpoint startsWith (p s : jstring) : bool :=
  match p, s with
  | [], _ => true
  | x :: p', y :: s' => (x =? y) && startsWith p' s'
  | _ :: _, [] => false
  end.

Definition slash : N := 47.

(** [s.replace(/^\/+/, "")] *)
Fixpoint strip_leading_slashes (s : jstring) : jstring :=
  match s with
  | c :: r => if c =? slash then strip_leading_slashes r else s
  | [] => []
  end.

(** [s.replace(/\/+$/, "")] *)
Definition strip_trailing_slashes (s : jstring) : jstring :=
  rev (strip_leading_slashes (rev s)).

(** Truthiness of a string: only the empty string is falsy. *)
Definition nonempty (s : jstring) : bool :=
  match s with [] => false | _ :: _ => true end.

Fixpoint digits (u : Decimal.uint) : jstring :=
  match u with
  | Decimal.Nil => []
  | Decimal.D0 r => 48 :: digits r
  | Decimal.D1 r => 49 :: digits r
  | Decimal.D2 r => 50 :: digits r
  | Decimal.D3 r => 51 :: digits r
  | Decimal.D4 r => 52 :: digits r
  | Decimal.D5 r => 53 :: digits r
  | Decimal.D6 r => 54 :: digits r
  | Decimal.D7 r => 55 :: digits r
  | Decimal.D8 r => 56 :: digits r
  | Decimal.D9 r => 57 :: digits r
  end.

(** The decimal numeral of a template literal [${n}]. *)
Definition decimal (n : N) : jstring := digits (N.to_uint n).

End JsString.
Import JsString.

(** ** JSON values and the JavaScript operations the worker applies to them *)

Inductive json : Type :=
| JNull
| JBool (b : bool)
| JNum (text : jstring)   (* the number n, as String(n): "404", "1e+21", "0.5" *)
| JStr (s : jstring)
| JArr (items : list json)
| JObj (fields : list (jstring * json)).

(** A JavaScript value of the worker: a JSON value or [undefined] ([None]). *)
Definition jsval := option json.

Fixpoint lookup (k : jstring) (fields : list (jstring * json)) : jsval :=
  match fields with
  | [] => None
  | (k', v) :: rest => if JsString.eqb k k' then Some v else lookup k rest
  end.

(** [v.k] for a value [v] that is neither [null] nor [undefined]: own
    fields of an object; the keys the worker reads ([sha], [message],
    [content], [path], [name], [type], [commit]) are absent from arrays,
    strings, numbers and booleans. *)
Definition field (v : json) (k : jstring) : jsval :=
  match v with
  | JObj fields => lookup k fields
  | _ => None
  end.

(** Truthiness, as tested by [if (v)], [v || d], [v && w], [v ? a : b].
    The falsy numbers are [0], [-0] (both print as [0]) and [NaN]. *)
Definition truthy (v : jsval) : bool :=
  match v with
  | None | Some JNull => false
  | Some (JBool b) => b
  | Some (JNum text) =>
      negb (JsString.eqb text (js "0") || JsString.eqb text (js "NaN"))
  | Some (JStr s) => nonempty s
  | Some (JArr _) | Some (JObj _) => true
  end.

Definition is_string (v : jsval) : option jstring :=
  match v with Some (JStr s) => Some s | _ => None end.

(** An object literal as [JSON.stringify] prints it: fields whose value is
    [undefined] are left out. *)
Fixpoint obj_fields (l : list (jstring * jsval)) : list (jstring * json) :=
  match l with
  | [] => []
  | (k, Some v) :: rest => (k, v) :: obj_fields rest
  | (_, None) :: rest => obj_fields rest
  end.

Definition obj (l : list (jstring * jsval)) : json := JObj (obj_fields l).

Fixpoint join_with (sep : jstring) (l : list jstring) : jstring :=
  match l with
  | [] => []
  | [s] => s
  | s :: rest => s ++ sep ++ join_with sep rest
  end.

(** [String(v)] for a JSON value. *)
Fixpoint to_String (v : json) : jstring :=
  match v with
  | JNull => js "null"
  | JBool true => js "true"
  | JBool false => js "false"
  | JNum text => text
  | JStr s => s
  | JArr items =>
      join_with (js ",")
        (map (fun i => match i with JNull => [] | _ => to_String i end) items)
  | JObj _ => js "[object Object]"
  end.

Definition to_String_val (v : jsval) : jstring :=
  match v with None => js "undefined" | Some j => to_String j end.

(** ** Exceptions *)

Inductive error : Type :=
| GithubError (status : N) (message : jstring) (githubBody : json)
    (* thrown by githubRequest, carries err.status *)
| FetchFailed (message : jstring)          (* the network call was rejected *)
| TypeError (message : jstring)            (* property read on null / undefined *)
| URIError (message : jstring)             (* decodeURIComponent *)
| InvalidCharacterError (message : jstring)  (* btoa / atob *)
| PlainError (message : jstring).          (* throw new Error(...) *)

(** [err.status]: only the errors of [githubRequest] carry one. *)
Definition err_status (e : error) : option N :=
  match e with GithubError s _ _ => Some s | _ => None end.

Definition err_message (e : error) : jstring :=
  match e with
  | GithubError _ m _ | FetchFailed m | TypeError m | URIError m
  | InvalidCharacterError m | PlainError m => m
  end.

Definition err_name (e : error) : jstring :=
  match e with
  | GithubError _ _ _ | PlainError _ => js "Error"
  | FetchFailed _ | TypeError _ => js "TypeError"
  | URIError _ => js "URIError"
  | InvalidCharacterError _ => js "InvalidCharacterError"
  end.

(** [String(err)] *)
Definition err_to_String (e : error) : jstring :=
  if nonempty (err_message e) then err_name e ++ js ": " ++ err_message e
  else err_name e.

Definition result (A : Type) : Type := (error + A)%type.

(** [err.status === 404] *)
Definition status_is_404 (e : error) : bool :=
  match err_status e with Some s => s =? 404 | None => false end.

(** [v.k] where [v] may be [null] or [undefined]: reading a property of
    either throws a TypeError (the text of the message is the engine's). *)
Definition prop (v : jsval) (k : jstring) : result jsval :=
  match v with
  | None => inl (TypeError (js "Cannot read properties of undefined"))
  | Some JNull => inl (TypeError (js "Cannot read properties of null"))
  | Some j => inr (field j k)
  end.

(** ** The platform's base64 functions

    [btoa] and [atob] are the functions of the HTML standard: [btoa] refuses
    a string with a code point above U+00FF and encodes the others as bytes;
    [atob] is the forgiving base64 decoder (ASCII whitespace is dropped,
    padding is optional) and returns a string of bytes. *)

Module Base64.

Definition char_of_sextet (n : N) : N :=
  if n <? 26 then 65 + n                 (* A-Z *)
  else if n <? 52 then 97 + (n - 26)     (* a-z *)
  else if n <? 62 then 48 + (n - 52)     (* 0-9 *)
  else if n =? 62 then 43                (* + *)
  else 47.                               (* / *)

Definition sextet_of_char (c : N) : option N :=
  if (65 <=? c) && (c <=? 90) then Some (c - 65)
  else if (97 <=? c) && (c <=? 122) then Some (c - 97 + 26)
  else if (48 <=? c) && (c <=? 57) then Some (c - 48 + 52)
  else if c =? 43 then Some 62
  else if c =? 47 then Some 63
  else None.

Fixpoint sextets_of_bytes (l : list N) : list N :=
  match l with
  | a :: b :: c :: rest =>
      a / 4 :: (a mod 4) * 16 + b / 16 :: (b mod 16) * 4 + c / 64 :: c mod 64
        :: sextets_of_bytes rest
  | [a; b] => [a / 4; (a mod 4) * 16 + b / 16; (b mod 16) * 4]
  | [a] => [a / 4; (a mod 4) * 16]
  | [] => []
  end.

Definition equals_sign : N := 61.

Definition padding (len : nat) : jstring :=
  match Nat.modulo len 3 with
  | 1%nat => [equals_sign; equals_sign]
  | 2%nat => [equals_sign]
  | _ => []
  end.

(** The characters of the encoding before the padding. *)
Definition body (bytes : list N) : jstring :=
  map char_of_sextet (sextets_of_bytes bytes).

Definition encode (bytes : list N) : jstring :=
  body bytes ++ padding (List.length bytes).

Fixpoint bytes_of_sextets (l : list N) : list N :=
  match l with
  | a :: b :: c :: d :: rest =>
      a * 4 + b / 16 :: (b mod 16) * 16 + c / 4 :: (c mod 4) * 64 + d
        :: bytes_of_sextets rest
  | [a; b; c] => [a * 4 + b / 16; (b mod 16) * 16 + c / 4]
  | [a; b] => [a * 4 + b / 16]
  | _ => []
  end.

Fixpoint sextets_of_chars (s : jstring) : option (list N) :=
  match s with
  | [] => Some []
  | c :: r =>
      match sextet_of_char c, sextets_of_chars r with
      | Some x, Some xs => Some (x :: xs)
      | _, _ => None
      end
  end.

Definition is_ascii_whitespace (c : N) : bool :=
  (c =? 9) || (c =? 10) || (c =? 12) || (c =? 13) || (c =? 32).

(** Removes one or two trailing [=]. *)
Definition strip_padding (s : jstring) : jstring :=
  match rev s with
  | e1 :: e2 :: r =>
      if e1 =? equals_sign
      then if e2 =? equals_sign then rev r else rev (e2 :: r)
      else s
  | [e1] => if e1 =? equals_sign then [] else s
  | [] => s
  end.

(** The forgiving base64 decoder; [None] is its failure. *)
Definition decode (data : jstring) : option (list N) :=
  let d1 := filter (fun c => negb (is_ascii_whitespace c)) data in
  let d2 := if Nat.eqb (Nat.modulo (List.length d1) 4) 0 then strip_padding d1 else d1 in
  if Nat.eqb (Nat.modulo (List.length d2) 4) 1 then None
  else option_map bytes_of_sextets (sextets_of_chars d2).

(** No code point above U+00FF. *)
Definition latin1 (s : jstring) : bool := forallb (fun c => c <=? 255) s.

Definition btoa (s : jstring) : result jstring :=
  if latin1 s then inr (encode s)
  else inl (InvalidCharacterError
              (js "btoa: the string contains characters outside of the Latin1 range")).

Definition atob (s : jstring) : result jstring :=
  match decode s with
  | Some bytes => inr bytes
  | None => inl (InvalidCharacterError
                   (js "atob: the string is not correctly encoded"))
  end.

End Base64.

(** ** The globals the worker probes before it uses them

    [typeof btoa === "function"] and [typeof Buffer !== "undefined"] ask the
    runtime; a global that is absent is [None].  Node's [Buffer] is kept
    abstract: [utf8_to_base64 s] stands for
    [Buffer.from(s, "utf8").toString("base64")] and [base64_to_utf8 v] for
    [Buffer.from(v, "base64").toString("utf8")], which throws for some
    arguments that are not strings. *)

Record BufferApi : Type := {
  utf8_to_base64 : jstring -> jstring;
  base64_to_utf8 : jsval -> result jstring
}.

Record runtime : Type := {
  rt_btoa : option (jstring -> result jstring);
  rt_atob : option (jstring -> result jstring);
  rt_Buffer : option BufferApi
}.

(** Cloudflare Workers, and Node from version 16 on where [btoa] and [atob]
    are globals too: the first branch of both helpers is the one taken. *)
Definition workers_runtime : runtime :=
  {| rt_btoa := Some Base64.btoa; rt_atob := Some Base64.atob; rt_Buffer := None |}.

Definition toBase64 (rt : runtime) (str : jstring) : result jstring :=
  match rt_btoa rt with
  | Some btoa => btoa str
  | None =>
      match rt_Buffer rt with
      | Some B => inr (utf8_to_base64 B str)
      | None => inl (PlainError (js "No base64 encoder available for toBase64"))
      end
  end.

(** The argument is a string when it comes from [toBase64]; the GET handler
    passes [file.content] unchecked, and [atob] converts its argument with
    [String]. *)
Definition fromBase64 (rt : runtime) (str : jsval) : result jstring :=
  match rt_atob rt with
  | Some atob => atob (to_String_val str)
  | None =>
      match rt_Buffer rt with
      | Some B => base64_to_utf8 B str
      | None => inl (PlainError (js "No base64 decoder available for fromBase64"))
      end
  end.


(** ** The platform's URI component functions *)

Module Uri.

Definition percent : N := 37.

(** The characters [encodeURIComponent] leaves alone:
    letters, digits and [- _ . ! ~ * ' ( )]. *)
Definition unreserved (c : N) : bool :=
  ((65 <=? c) && (c <=? 90)) || ((97 <=? c) && (c <=? 122))
  || ((48 <=? c) && (c <=? 57))
  || (c =? 45) || (c =? 95) || (c =? 46) || (c =? 33) || (c =? 126)
  || (c =? 42) || (c =? 39) || (c =? 40) || (c =? 41).

Definition utf8 (c : N) : list N :=
  if c <? 128 then [c]
  else if c <? 2048 then [192 + c / 64; 128 + c mod 64]
  else if c <? 65536 then [224 + c / 4096; 128 + (c / 64) mod 64; 128 + c mod 64]
  else [240 + c / 262144; 128 + (c / 4096) mod 64; 128 + (c / 64) mod 64;
        128 + c mod 64].

Definition hex_digit (n : N) : N := if n <? 10 then 48 + n else 65 + (n - 10).

Definition escape (b : N) : jstring := [percent; hex_digit (b / 16); hex_digit (b mod 16)].

Definition encodeURIComponent (s : jstring) : jstring :=
  flat_map (fun c => if unreserved c then [c] else flat_map escape (utf8 c)) s.

Definition hex_value (c : N) : option N :=
  if (48 <=? c) && (c <=? 57) then Some (c - 48)
  else if (65 <=? c) && (c <=? 70) then Some (c - 65 + 10)
  else if (97 <=? c) && (c <=? 102) then Some (c - 97 + 10)
  else None.

(** The length of the UTF-8 sequence a leading octet above 0x7F announces;
    a continuation octet or more than four leading ones is an error. *)
Definition utf8_length (b : N) : option nat :=
  if b <? 192 then None
  else if b <? 224 then Some 2%nat
  else if b <? 240 then Some 3%nat
  else if b <? 248 then Some 4%nat
  else None.

Definition continuation (b : N) : bool := (128 <=? b) && (b <=? 191).

(** The code point of a well-formed UTF-8 sequence of two to four octets. *)
Definition utf8_code_point (octets : list N) : option N :=
  match octets with
  | [b0; b1] =>
      let cp := (b0 - 192) * 64 + (b1 - 128) in
      if continuation b1 && (128 <=? cp) then Some cp else None
  | [b0; b1; b2] =>
      let cp := (b0 - 224) * 4096 + (b1 - 128) * 64 + (b2 - 128) in
      if continuation b1 && continuation b2 && (2048 <=? cp)
         && negb ((55296 <=? cp) && (cp <=? 57343))
      then Some cp else None
  | [b0; b1; b2; b3] =>
      let cp := (b0 - 240) * 262144 + (b1 - 128) * 4096 + (b2 - 128) * 64
                + (b3 - 128) in
      if continuation b1 && continuation b2 && continuation b3
         && (65536 <=? cp) && (cp <=? 1114111)
      then Some cp else None
  | _ => None
  end.

(** Where the decoder stands between two characters of its input. *)
Inductive dstate : Type :=
| DIdle
| DPercent (octets : list N) (need : nat)     (* a [%] was read *)
| DHex (octets : list N) (need : nat) (hi : N)  (* [%] and one hex digit *)
| DMore (octets : list N) (need : nat).       (* [need] more escapes must follow *)

Definition malformed {A} : result A := inl (URIError (js "URI malformed")).

Definition emit (c : N) (r : result jstring) : result jstring :=
  match r with inr s => inr (c :: s) | inl e => inl e end.

Fixpoint decode_from (st : dstate) (s : jstring) : result jstring :=
  match s with
  | [] => match st with DIdle => inr [] | _ => malformed end
  | c :: r =>
      match st with
      | DIdle =>
          if c =? percent then decode_from (DPercent [] 0) r
          else emit c (decode_from DIdle r)
      | DPercent octets need =>
          match hex_value c with
          | Some hi => decode_from (DHex octets need hi) r
          | None => malformed
          end
      | DHex octets need hi =>
          match hex_value c with
          | None => malformed
          | Some lo =>
              let b := hi * 16 + lo in
              match octets with
              | [] =>
                  if b <? 128 then emit b (decode_from DIdle r)
                  else match utf8_length b with
                       | Some n => decode_from (DMore [b] (Nat.pred n)) r
                       | None => malformed
                       end
              | _ :: _ =>
                  match need with
                  | 1%nat =>
                      match utf8_code_point (octets ++ [b]) with
                      | Some cp => emit cp (decode_from DIdle r)
                      | None => malformed
                      end
                  | S need' => decode_from (DMore (octets ++ [b]) need') r
                  | O => malformed
                  end
              end
          end
      | DMore octets need =>
          if c =? percent then decode_from (DPercent octets need) r
          else malformed
      end
  end.

Definition decodeURIComponent (s : jstring) : result jstring :=
  decode_from DIdle s.

End Uri.
Import Uri.

(** ** Configuration, calls to the backing store, requests and responses *)

(** [env]: the variables of wrangler.toml and the secrets.  The two
    variables the worker tests for absence are optional. *)
Record Env : Type := {
  GITHUB_OWNER : jstring;
  GITHUB_REPO : jstring;
  GITHUB_BRANCH : jstring;
  GITHUB_TOKEN : jstring;
  DOCS_BASE_DIR : option jstring;
  DOCSTORE_API_TOKEN : option jstring
}.

(** One [fetch(url, init)] issued to the content API. *)
Record call : Type := {
  c_method : jstring;
  c_url : jstring;
  c_headers : list (jstring * jstring);
  c_body : option json
}.

Inductive reply : Type :=
| NetFail (message : jstring)        (* fetch rejected *)
| Http (status : N) (body : json).   (* res.status and the parsed res.text() *)

(** The backing store: its reply to a call may depend on the calls before it. *)
Definition backend : Type := list call -> call -> reply.

(** The inbound request, after [new URL(request.url)]: [req_dir] is
    [searchParams.get("dir")], [req_authorization] is
    [headers.get("Authorization")] (both [None] for [null]), [req_json] is the
    value of [request.json()], [None] when it throws. *)
Record Request : Type := {
  req_method : jstring;
  req_pathname : jstring;
  req_dir : option jstring;
  req_authorization : option jstring;
  req_json : option json
}.

Record Response : Type := {
  res_status : N;
  res_body : json
}.

(** ** The computations: a log of issued calls and exceptions that keep it *)

Definition M (A : Type) : Type := list call -> result A * list call.

Definition ret {A} (a : A) : M A := fun log => (inr a, log).

Definition throw {A} (e : error) : M A := fun log => (inl e, log).

Definition bind {A B} (m : M A) (k : A -> M B) : M B :=
  fun log =>
    match m log with
    | (inr a, log') => k a log'
    | (inl e, log') => (inl e, log')
    end.

(** [try { m } catch (err) { handler err }] *)
Definition try_catch {A} (m : M A) (handler : error -> M A) : M A :=
  fun log =>
    match m log with
    | (inr a, log') => (inr a, log')
    | (inl e, log') => handler e log'
    end.

(** A pure step that may throw. *)
Definition lift {A} (r : result A) : M A :=
  match r with inr a => ret a | inl e => throw e end.

Declare Scope worker_scope.
Delimit Scope worker_scope with worker.
Notation "x <- m ;; k" := (bind m (fun x => k))
  (at level 61, m at next level, right associativity) : worker_scope.
Local Open Scope worker_scope.

(** [a || b] on strings, where [a] may be [undefined]. *)
Definition or_else (a : option jstring) (b : jstring) : jstring :=
  match a with
  | Some s => if nonempty s then s else b
  | None => b
  end.

Definition GITHUB_API_BASE : jstring := js "https://api.github.com".

(** [res.ok] *)
Definition res_ok (status : N) : bool := (200 <=? status) && (status <=? 299).

(** ** Path mapping *)

Definition normalizeBaseDir (env : Env) : jstring :=
  let base := or_else (DOCS_BASE_DIR env) (js "docs") in
  strip_trailing_slashes base.

Definition buildRepoPath (env : Env) (docPath : jstring) : jstring :=
  let base := normalizeBaseDir env in
  if negb (nonempty docPath) || JsString.eqb docPath (js "/") then base
  else
    let cleaned := strip_leading_slashes docPath in
    base ++ js "/" ++ cleaned.

(** The inverse mapping, [logicalPathFromGitPath] of the second worker
    module of the sources (src/README.md, lines 20-29), the function
    test/github.test.js imports.  That module takes [normalizeBaseDir] from
    [./utils.js], which is not among the sources; it is the function of that
    name above. *)
Definition logicalPathFromGitPath (env : Env) (gitPath : jstring) : jstring :=
  let base := normalizeBaseDir env in
  if JsString.eqb gitPath base then []
  else if startsWith (base ++ js "/") gitPath
       then skipn (List.length base + 1) gitPath
       else gitPath.

(** ** The content-store client *)

Section Client.

Variable rt : runtime.
Variable store : backend.

(** [await fetch(url, init)]: the call is logged, the store replies. *)
Definition fetch_call (c : call) : M reply :=
  fun log => (inr (store log c), log ++ [c]).

Definition request_headers (env : Env) (body : option json) : list (jstring * jstring) :=
  [ (js "Authorization", js "Bearer " ++ GITHUB_TOKEN env);
    (js "Accept", js "application/vnd.github+json");
    (js "User-Agent", js "cloudflare-docstore-worker") ]
  ++ match body with
     | Some _ => [(js "Content-Type", js "application/json")]
     | None => []
     end.

Definition github_call (method path : jstring) (env : Env) (body : option json) : call :=
  {| c_method := method;
     c_url := GITHUB_API_BASE ++ path;
     c_headers := request_headers env body;
     c_body := body |}.

(** [(json && json.message) ? json.message : `GitHub API error ${res.status}`],
    converted by [new Error(message)]. *)
Definition error_message (status : N) (json : json) : jstring :=
  if truthy (Some json) && truthy (field json (js "message"))
  then to_String_val (field json (js "message"))
  else js "GitHub API error " ++ decimal status.

Definition githubRequest (method path : jstring) (env : Env) (body : option json)
  : M json :=
  res <- fetch_call (github_call method path env body) ;;
  match res with
  | NetFail m => throw (FetchFailed m)
  | Http status json =>
      if negb (res_ok status)
      then throw (GithubError status (error_message status json) json)
      else ret json
  end.

Definition contents_path (env : Env) (repoPath : jstring) : jstring :=
  js "/repos/" ++ GITHUB_OWNER env ++ js "/" ++ GITHUB_REPO env
    ++ js "/contents/" ++ encodeURIComponent repoPath.

Definition contents_path_ref (env : Env) (repoPath : jstring) : jstring :=
  contents_path env repoPath ++ js "?ref=" ++ encodeURIComponent (GITHUB_BRANCH env).

Definition getFile (env : Env) (docPath : jstring) : M json :=
  let repoPath := buildRepoPath env docPath in
  let apiPath := contents_path_ref env repoPath in
  githubRequest (js "GET") apiPath env None.

Definition putFile (env : Env) (docPath content : jstring)
           (commitMessage : option jstring) : M json :=
  let repoPath := buildRepoPath env docPath in
  let apiPath := contents_path env repoPath in
  existingSha <-
    try_catch
      (current <- getFile env docPath ;;
       lift (prop (Some current) (js "sha")))
      (fun err => if negb (status_is_404 err) then throw err else ret (Some JNull)) ;;
  encoded <- lift (toBase64 rt content) ;;
  let body :=
    obj ([ (js "message",
             Some (JStr (or_else commitMessage
                           (if truthy existingSha
                            then js "Update " ++ repoPath
                            else js "Create " ++ repoPath))));
           (js "content", Some (JStr encoded));
           (js "branch", Some (JStr (GITHUB_BRANCH env))) ]
         ++ (if truthy existingSha then [(js "sha", existingSha)] else [])) in
  githubRequest (js "PUT") apiPath env (Some body).

Definition deleteFile (env : Env) (docPath : jstring)
           (commitMessage : option jstring) : M json :=
  let repoPath := buildRepoPath env docPath in
  let apiPath := contents_path env repoPath in
  current <- getFile env docPath ;;
  sha <- lift (prop (Some current) (js "sha")) ;;
  let body :=
    obj [ (js "message", Some (JStr (or_else commitMessage (js "Delete " ++ repoPath))));
          (js "sha", sha);
          (js "branch", Some (JStr (GITHUB_BRANCH env))) ] in
  githubRequest (js "DELETE") apiPath env (Some body).

Definition listDocs (env : Env) (dirPath : option jstring) : M (list json) :=
  let repoPath := buildRepoPath env (or_else dirPath []) in
  let apiPath := contents_path_ref env repoPath in
  res <- githubRequest (js "GET") apiPath env None ;;
  match res with
  | JArr items => ret items
  | _ => ret [res]
  end.

End Client.

(** ** The shape of the calls the client issues *)

Definition get_call (env : Env) (docPath : jstring) : call :=
  github_call (js "GET") (contents_path_ref env (buildRepoPath env docPath)) env None.

(** The write of [putFile]; [sha] is [None] when the body has no [sha] field. *)
Definition put_call (env : Env) (docPath message encoded : jstring) (sha : jsval) : call :=
  github_call (js "PUT") (contents_path env (buildRepoPath env docPath)) env
    (Some (obj [ (js "message", Some (JStr message));
                 (js "content", Some (JStr encoded));
                 (js "branch", Some (JStr (GITHUB_BRANCH env)));
                 (js "sha", sha) ])).

Definition delete_call (env : Env) (docPath message : jstring) (sha : jsval) : call :=
  github_call (js "DELETE") (contents_path env (buildRepoPath env docPath)) env
    (Some (obj [ (js "message", Some (JStr message));
                 (js "sha", sha);
                 (js "branch", Some (JStr (GITHUB_BRANCH env))) ])).

Definition list_call (env : Env) (dirPath : option jstring) : call :=
  github_call (js "GET")
    (contents_path_ref env (buildRepoPath env (or_else dirPath []))) env None.

(** ** The request router *)

Definition jsonResponse (o : json) (status : N) : Response :=
  {| res_status := status; res_body := o |}.

Definition notFound (message : jstring) : Response :=
  jsonResponse (obj [(js "error", Some (JStr message))]) 404.

Definition badRequest (message : jstring) : Response :=
  jsonResponse (obj [(js "error", Some (JStr message))]) 400.

(** The value [checkAuth] returns: [{ ok: true }] or
    [{ ok: false, status, message }]. *)
Inductive auth : Type :=
| AuthOk
| AuthFail (status : N) (message : jstring).

(** [path === "/" && request.method === "GET"] *)
Definition is_health_check (request : Request) : bool :=
  JsString.eqb (req_pathname request) (js "/")
  && JsString.eqb (req_method request) (js "GET").

Definition checkAuth (request : Request) (env : Env) : auth :=
  if is_health_check request then AuthOk
  else
    match DOCSTORE_API_TOKEN env with
    | None => AuthFail 500 (js "DOCSTORE_API_TOKEN is not configured")
    | Some token =>
        if negb (nonempty token)
        then AuthFail 500 (js "DOCSTORE_API_TOKEN is not configured")
        else
          let authHeader := or_else (req_authorization request) [] in
          let expected := js "Bearer " ++ token in
          if negb (JsString.eqb authHeader expected)
          then AuthFail 401 (js "Unauthorized")
          else AuthOk
    end.

Section Router.

Variable rt : runtime.
Variable store : backend.

(** [{ error: err.message || "Internal error" }], status 500 *)
Definition internal_error (err : error) : Response :=
  jsonResponse
    (obj [(js "error", Some (JStr (or_else (Some (err_message err)) (js "Internal error"))))])
    500.

(** [items.map(item => ({ name: item.name, path: item.path, type: item.type }))] *)
Fixpoint map_items (items : list json) : result (list json) :=
  match items with
  | [] => inr []
  | item :: rest =>
      match prop (Some item) (js "name"), prop (Some item) (js "path"),
            prop (Some item) (js "type") with
      | inr name, inr path, inr type =>
          match map_items rest with
          | inr mapped =>
              inr (obj [(js "name", name); (js "path", path); (js "type", type)]
                     :: mapped)
          | inl e => inl e
          end
      | inl e, _, _ | _, inl e, _ | _, _, inl e => inl e
      end
  end.

Definition handle_list (request : Request) (env : Env) : M Response :=
  let dir := or_else (req_dir request) [] in
  items <- listDocs store env (Some dir) ;;
  mapped <- lift (map_items items) ;;
  ret (jsonResponse (obj [(js "items", Some (JArr mapped))]) 200).

Definition handle_get (env : Env) (docPath : jstring) : M Response :=
  try_catch
    (file <- getFile store env docPath ;;
     type <- lift (prop (Some file) (js "type")) ;;
     match is_string type with
     | Some t =>
         if JsString.eqb t (js "file")
         then
           content <- lift (fromBase64 rt (field file (js "content"))) ;;
           ret (jsonResponse
                  (obj [ (js "path", field file (js "path"));
                         (js "name", field file (js "name"));
                         (js "sha", field file (js "sha"));
                         (js "content", Some (JStr content)) ])
                  200)
         else ret (badRequest (js "Requested path is not a file"))
     | None => ret (badRequest (js "Requested path is not a file"))
     end)
    (fun err =>
       if status_is_404 err then ret (notFound (js "Document not found"))
       else ret (internal_error err)).

Definition handle_put (request : Request) (env : Env) (docPath : jstring)
  : M Response :=
  match req_json request with
  | None => ret (badRequest (js "Expected JSON body"))
  | Some body =>
      content <- lift (prop (Some body) (js "content")) ;;
      match is_string content with
      | None => ret (badRequest (js "Field 'content' (string) is required"))
      | Some content =>
          let commitMessage := is_string (field body (js "message")) in
          try_catch
            (result <- putFile rt store env docPath content commitMessage ;;
             rcontent <- lift (prop (Some result) (js "content")) ;;
             path <- lift (prop rcontent (js "path")) ;;
             name <- lift (prop rcontent (js "name")) ;;
             sha <- lift (prop rcontent (js "sha")) ;;
             commit <- lift (prop (Some result) (js "commit")) ;;
             csha <- lift (prop commit (js "sha")) ;;
             cmessage <- lift (prop commit (js "message")) ;;
             ret (jsonResponse
                    (obj [ (js "path", path);
                           (js "name", name);
                           (js "sha", sha);
                           (js "commit",
                             Some (obj [(js "sha", csha); (js "message", cmessage)])) ])
                    200))
            (fun err =>
               if status_is_404 err
               then ret (notFound (js "Repository or branch not found"))
               else ret (internal_error err))
      end
  end.

Definition handle_delete (request : Request) (env : Env) (docPath : jstring)
  : M Response :=
  let body := match req_json request with Some b => b | None => JObj [] end in
  message <- lift (prop (Some body) (js "message")) ;;
  let commitMessage := is_string message in
  try_catch
    (result <- deleteFile store env docPath commitMessage ;;
     commit <- lift (prop (Some result) (js "commit")) ;;
     csha <- lift (prop commit (js "sha")) ;;
     cmessage <- lift (prop commit (js "message")) ;;
     ret (jsonResponse
            (obj [ (js "path", Some (JStr docPath));
                   (js "commit",
                     Some (obj [(js "sha", csha); (js "message", cmessage)])) ])
            200))
    (fun err =>
       if status_is_404 err then ret (notFound (js "Document not found"))
       else ret (internal_error err)).

(** The body of the outer [try] of [fetch]. *)
Definition route (request : Request) (env : Env) : M Response :=
  match checkAuth request env with
  | AuthFail status message =>
      ret (jsonResponse (obj [(js "error", Some (JStr message))]) status)
  | AuthOk =>
      let pathname := req_pathname request in
      let method := req_method request in
      if JsString.eqb pathname (js "/") && JsString.eqb method (js "GET")
      then ret (jsonResponse (obj [(js "status", Some (JStr (js "ok")))]) 200)
      else if JsString.eqb pathname (js "/docs") && JsString.eqb method (js "GET")
      then handle_list request env
      else if startsWith (js "/docs/") pathname
      then
        docPath <- lift (decodeURIComponent (skipn 6 pathname)) ;;
        if JsString.eqb method (js "GET") then handle_get env docPath
        else if JsString.eqb method (js "PUT") then handle_put request env docPath
        else if JsString.eqb method (js "DELETE") then handle_delete request env docPath
        else ret (jsonResponse (obj [(js "error", Some (JStr (js "Method not allowed")))]) 405)
      else ret (notFound (js "Not found"))
  end.

(** [fetch(request, env, ctx)]: the outer [catch] turns every exception
    into a 500 response, so the handler always answers. *)
Definition fetch (request : Request) (env : Env) (log : list call)
  : Response * list call :=
  match route request env log with
  | (inr response, log') => (response, log')
  | (inl err, log') =>
      (jsonResponse
         (obj [ (js "error", Some (JStr (js "Unexpected error")));
                (js "detail",
                  Some (JStr (or_else (Some (err_message err)) (err_to_String err)))) ])
         500,
       log')
  end.

End Router.

(** ** The scenarios of test/github.test.js and of the specification *)

Module Scenario.

Definition env : Env :=
  {| GITHUB_OWNER := js "owner";
     GITHUB_REPO := js "repo";
     GITHUB_BRANCH := js "main";
     GITHUB_TOKEN := js "fake-token";
     DOCS_BASE_DIR := Some (js "docs");
     DOCSTORE_API_TOKEN := Some (js "api-token") |}.

Definition unexpected_call : reply :=
  Http 500 (obj [(js "message", Some (JStr (js "Unexpected call in test")))]).

Definition not_found : reply :=
  Http 404 (obj [(js "message", Some (JStr (js "Not Found")))]).

Definition created : reply :=
  Http 200
    (obj [ (js "content",
             Some (obj [ (js "path", Some (JStr (js "docs/test.md")));
                         (js "name", Some (JStr (js "test.md")));
                         (js "sha", Some (JStr (js "sha123"))) ]));
           (js "commit",
             Some (obj [ (js "sha", Some (JStr (js "commitsha")));
                         (js "message", Some (JStr (js "Create docs/test.md"))) ])) ]).

(** The stub of [testPutFileCreatesOn404]: every GET is answered 404,
    every PUT succeeds. *)
Definition empty_store : backend :=
  fun _ c =>
    if JsString.eqb (c_method c) (js "GET") then not_found
    else if JsString.eqb (c_method c) (js "PUT") then created
    else unexpected_call.

(** A store that answers every GET with the same body and accepts every
    write and delete. *)
Definition store_with (current : json) : backend :=
  fun _ c =>
    if JsString.eqb (c_method c) (js "GET") then Http 200 current
    else if JsString.eqb (c_method c) (js "PUT") then created
    else if JsString.eqb (c_method c) (js "DELETE")
    then Http 200
           (obj [(js "commit",
                   Some (obj [ (js "sha", Some (JStr (js "commitsha")));
                               (js "message", Some (JStr (js "Delete docs/test.md"))) ]))])
    else unexpected_call.

Definition existing_file : json :=
  obj [ (js "type", Some (JStr (js "file")));
        (js "path", Some (JStr (js "docs/test.md")));
        (js "name", Some (JStr (js "test.md")));
        (js "sha", Some (JStr (js "sha-file"))) ].

(** What the content API answers for a directory: an array of entries. *)
Definition directory_listing : json :=
  JArr [ obj [ (js "type", Some (JStr (js "file")));
               (js "path", Some (JStr (js "docs/ftl/canon.md")));
               (js "name", Some (JStr (js "canon.md")));
               (js "sha", Some (JStr (js "sha-canon"))) ] ].

Definition single_file : json :=
  obj [ (js "type", Some (JStr (js "file")));
        (js "path", Some (JStr (js "docs/ftl")));
        (js "name", Some (JStr (js "ftl")));
        (js "sha", Some (JStr (js "sha-ftl"))) ].

Definition bearer : option jstring := Some (js "Bearer api-token").

(** Scenario A: [PUT /docs/test.md {"content":"Hello world","message":"Create test.md"}] *)
Definition put_request : Request :=
  {| req_method := js "PUT";
     req_pathname := js "/docs/test.md";
     req_dir := None;
     req_authorization := bearer;
     req_json := Some (obj [ (js "content", Some (JStr (js "Hello world")));
                             (js "message", Some (JStr (js "Create test.md"))) ]) |}.

(** [DELETE /docs/test.md] without a body. *)
Definition delete_request : Request :=
  {| req_method := js "DELETE";
     req_pathname := js "/docs/test.md";
     req_dir := None;
     req_authorization := bearer;
     req_json := None |}.

(** Scenario D: [GET /docs?dir=ftl] *)
Definition list_request : Request :=
  {| req_method := js "GET";
     req_pathname := js "/docs";
     req_dir := Some (js "ftl");
     req_authorization := bearer;
     req_json := None |}.

(** Scenario C: a protected route without an [Authorization] header. *)
Definition anonymous_request : Request :=
  {| req_method := js "GET";
     req_pathname := js "/docs/test.md";
     req_dir := None;
     req_authorization := None;
     req_json := None |}.

(** Text with an emoji and two ideographs, as in [testBase64UnicodeRoundTrip]. *)
Definition unicode_text : jstring := js "Emoji " ++ [128536] ++ js " and " ++ [28450; 23383].

End Scenario.

(** What [githubRequest] makes of a reply: the parsed body of a 2xx reply,
    an exception otherwise. *)
Definition outcome (r : reply) : result json :=
  match r with
  | NetFail m => inl (FetchFailed m)
  | Http status json =>
      if res_ok status then inr json
      else inl (GithubError status (error_message status json) json)
  end.

(** The value of [existingSha] after the [try]/[catch] of [putFile], or the
    exception the [catch] rethrows, for a given reply to the get. *)
Definition discovered_sha (r : reply) : result jsval :=
  match outcome r with
  | inr current => prop (Some current) (js "sha")
  | inl err => if status_is_404 err then inr (Some JNull) else inl err
  end.

(** ** The upsert rule as the specification words it

    "If the get succeeds, the write carries the discovered revision marker
    and the default message [Update <repositoryPath>]", for a caller that
    supplies no message and a store that has seen no call yet. *)
Definition put_updates_when_get_succeeds
           (rt : runtime) (store : backend) (env : Env) (docPath content : jstring) : Prop :=
  forall (status : N) (current : json),
    store [] (get_call env docPath) = Http status current ->
    res_ok status = true ->
    exists (encoded : jstring) (sha : json),
      snd (putFile rt store env docPath content None [])
      = [ get_call env docPath;
          put_call env docPath (js "Update " ++ buildRepoPath env docPath) encoded (Some sha) ].

(** ** The delete rule as the specification words it

    "If the get succeeds, exactly one delete call is issued carrying the
    revision marker discovered by the get", for a caller that supplies no
    message and a store that has seen no call yet. *)
Definition delete_carries_marker_when_get_succeeds
           (store : backend) (env : Env) (docPath : jstring) : Prop :=
  forall (status : N) (current : json),
    store [] (get_call env docPath) = Http status current ->
    res_ok status = true ->
    exists (message : jstring) (sha : json),
      snd (deleteFile store env docPath None [])
      = [ get_call env docPath; delete_call env docPath message (Some sha) ].

(** ** Vocabulary of the further properties *)

(** [s.endsWith("/")] *)
Definition ends_with_slash (s : jstring) : bool :=
  match rev s with
  | c :: _ => c =? slash
  | [] => false
  end.

(** A Unicode scalar value: a code point that is not a surrogate. *)
Definition is_scalar (c : N) : bool :=
  (c <? 55296) || ((57343 <? c) && (c <=? 1114111)).

(** The entry the listing handler builds from one object of the store. *)
Definition listing_entry (fields : list (jstring * json)) : json :=
  obj [ (js "name", lookup (js "name") fields);
        (js "path", lookup (js "path") fields);
        (js "type", lookup (js "type") fields) ].

(** The response of the outer [catch] of [fetch]. *)
Definition unexpected_error (err : error) : Response :=
  jsonResponse
    (obj [ (js "error", Some (JStr (js "Unexpected error")));
           (js "detail",
             Some (JStr (or_else (Some (err_message err)) (err_to_String err)))) ])
    500.

(** The URL every call of the client starts with: the contents endpoint of
    the configured repository. *)
Definition contents_endpoint (env : Env) : jstring :=
  GITHUB_API_BASE ++ js "/repos/" ++ GITHUB_OWNER env ++ js "/" ++ GITHUB_REPO env
    ++ js "/contents/".

(** The calls one request may add to the log: none, one read, or one read
    followed by one write or delete. *)
Definition read_then_write (env : Env) (calls : list call) : Prop :=
  calls = []
  \/ (exists p, calls = [github_call (js "GET") (contents_path_ref env p) env None])
  \/ (exists p q method body,
        calls = [ github_call (js "GET") (contents_path_ref env p) env None;
                  github_call method (contents_path env q) env (Some body) ]
        /\ (method = js "PUT" \/ method = js "DELETE")).

(** The request is let through by [checkAuth], has the given method and
    addresses the document [docPath]: its path is [/docs/] followed by a
    remainder that percent-decodes to [docPath]. *)
Definition addresses (request : Request) (env : Env) (method docPath : jstring) : Prop :=
  checkAuth request env = AuthOk
  /\ req_method request = method
  /\ exists rest, req_pathname request = js "/docs/" ++ rest
                  /\ decodeURIComponent rest = inr docPath.

(** The [catch] of the GET handler. *)
Definition get_failure (err : error) : Response :=
  if status_is_404 err then notFound (js "Document not found") else internal_error err.

(** The answer of the GET handler as a function of the store's reply. *)
Definition get_response (rt : runtime) (r : reply) : Response :=
  match outcome r with
  | inl err => get_failure err
  | inr file =>
      match prop (Some file) (js "type") with
      | inl err => get_failure err
      | inr type =>
          match is_string type with
          | Some t =>
              if JsString.eqb t (js "file")
              then match fromBase64 rt (field file (js "content")) with
                   | inl err => get_failure err
                   | inr content =>
                       jsonResponse
                         (obj [ (js "path", field file (js "path"));
                                (js "name", field file (js "name"));
                                (js "sha", field file (js "sha"));
                                (js "content", Some (JStr content)) ])
                         200
                   end
              else badRequest (js "Requested path is not a file")
          | None => badRequest (js "Requested path is not a file")
          end
      end
  end.

(** The [catch] of the PUT handler. *)
Definition put_failure (err : error) : Response :=
  if status_is_404 err then notFound (js "Repository or branch not found")
  else internal_error err.

(** The answer of the PUT handler to the result of [putFile]. *)
Definition put_success (result : json) : Response :=
  match prop (Some result) (js "content") with
  | inl err => put_failure err
  | inr rcontent =>
      match prop rcontent (js "path"), prop rcontent (js "name"),
            prop rcontent (js "sha"), prop (Some result) (js "commit") with
      | inr path, inr name, inr sha, inr commit =>
          match prop commit (js "sha"), prop commit (js "message") with
          | inr csha, inr cmessage =>
              jsonResponse
                (obj [ (js "path", path);
                       (js "name", name);
                       (js "sha", sha);
                       (js "commit",
                         Some (obj [(js "sha", csha); (js "message", cmessage)])) ])
                200
          | inl err, _ | _, inl err => put_failure err
          end
      | inl err, _, _, _ | _, inl err, _, _ | _, _, inl err, _ | _, _, _, inl err =>
          put_failure err
      end
  end.

Module Cases.

Import Scenario.

Definition get_request : Request :=
  {| req_method := js "GET";
     req_pathname := js "/docs/test.md";
     req_dir := None;
     req_authorization := bearer;
     req_json := None |}.

(** [PUT /docs/test.md] with a body that has no [content]. *)
Definition put_without_content : Request :=
  {| req_method := js "PUT";
     req_pathname := js "/docs/test.md";
     req_dir := None;
     req_authorization := bearer;
     req_json := Some (obj [(js "message", Some (JStr (js "no content")))]) |}.

Definition patch_request : Request :=
  {| req_method := js "PATCH";
     req_pathname := js "/docs/test.md";
     req_dir := None;
     req_authorization := bearer;
     req_json := None |}.

(** The route the README calls the health check. *)
Definition health_request : Request :=
  {| req_method := js "GET";
     req_pathname := js "/health";
     req_dir := None;
     req_authorization := bearer;
     req_json := None |}.

Definition malformed_request : Request :=
  {| req_method := js "GET";
     req_pathname := js "/docs/100%";
     req_dir := None;
     req_authorization := bearer;
     req_json := None |}.

(** [GET /docs/] followed by the escaped form of a path with an ideograph. *)
Definition escaped_request : Request :=
  {| req_method := js "GET";
     req_pathname := js "/docs/" ++ encodeURIComponent (js "notes/" ++ [28450] ++ js ".md");
     req_dir := None;
     req_authorization := bearer;
     req_json := None |}.

(** [DELETE /docs/test.md] whose body is the JSON text [null]. *)
Definition delete_null_body : Request :=
  {| req_method := js "DELETE";
     req_pathname := js "/docs/test.md";
     req_dir := None;
     req_authorization := bearer;
     req_json := Some JNull |}.

(** A store that refuses every call with the same status and body. *)
Definition failing_store (status : N) (body : json) : backend :=
  fun _ _ => Http status body.

(** A stored file whose content is the wrapped base64 of [Hello world]. *)
Definition stored_file : json :=
  obj [ (js "type", Some (JStr (js "file")));
        (js "path", Some (JStr (js "docs/test.md")));
        (js "name", Some (JStr (js "test.md")));
        (js "sha", Some (JStr (js "sha-file")));
        (js "content", Some (JStr (js "SGVsbG8g" ++ [10] ++ js "d29ybGQ=" ++ [10]))) ].

(** A store on which the read finds nothing and the write is refused. *)
Definition refusing_store (status : N) (body : json) : backend :=
  fun _ c =>
    if JsString.eqb (c_method c) (js "GET") then not_found else Http status body.

End Cases.

(** * Properties *)

(** ** Strings *)

Lemma eqb_refl (a : jstring) : JsString.eqb a a = true.
Proof.
  induction a as [|x a IH]; simpl; [reflexivity|].
  now rewrite N.eqb_refl, IH.
Qed.

Lemma eqb_eq (a b : jstring) : JsString.eqb a b = true <-> a = b.
Proof.
  split; [|intros ->; apply eqb_refl].
  revert b; induction a as [|x a IH]; intros [|y b]; simpl; try discriminate; auto.
  intros H. apply andb_true_iff in H as [Hx Hr].
  apply N.eqb_eq in Hx. f_equal; auto.
Qed.

Lemma eqb_neq (a b : jstring) : JsString.eqb a b = false <-> a <> b.
Proof.
  split.
  - intros H E. apply eqb_eq in E. congruence.
  - intros H. destruct (JsString.eqb a b) eqn:E; [|reflexivity].
    apply eqb_eq in E. contradiction.
Qed.

Lemma startsWith_app (p s : jstring) : startsWith p (p ++ s) = true.
Proof.
  induction p as [|x p IH]; simpl; [reflexivity|].
  now rewrite N.eqb_refl, IH.
Qed.

Lemma skipn_prefix (p s : jstring) : skipn (List.length p) (p ++ s) = s.
Proof. induction p; simpl; auto. Qed.

Lemma app_longer (a b : jstring) : b <> [] -> a ++ b <> a.
Proof.
  intros Hb E. apply (f_equal (@List.length N)) in E.
  rewrite length_app in E. destruct b; [contradiction|simpl in E; lia].
Qed.

Lemma or_else_some (a : option jstring) (b s : jstring) :
  s <> [] -> or_else a [] = s -> a = Some s.
Proof.
  unfold or_else. destruct a as [t|]; [|congruence].
  destruct t; simpl; [congruence|]. intros _ ->. reflexivity.
Qed.

(** ** Path mapping *)

(** Outside its two special cases [buildRepoPath] always prefixes. *)
Lemma buildRepoPath_prefixes (env : Env) (docPath : jstring) :
  docPath <> [] -> docPath <> js "/" ->
  buildRepoPath env docPath
  = normalizeBaseDir env ++ js "/" ++ strip_leading_slashes docPath.
Proof.
  intros H1 H2. unfold buildRepoPath.
  destruct docPath as [|c r]; [contradiction|].
  apply eqb_neq in H2. now rewrite H2.
Qed.

Lemma buildRepoPath_root (env : Env) :
  buildRepoPath env [] = normalizeBaseDir env
  /\ buildRepoPath env (js "/") = normalizeBaseDir env.
Proof. split; reflexivity. Qed.

(** The assertions of [testBuildRepoPath] that the code meets. *)
Example buildRepoPath_relative :
  buildRepoPath Scenario.env (js "ftl/canon.md") = js "docs/ftl/canon.md".
Proof. reflexivity. Qed.

Example buildRepoPath_leading_slash :
  buildRepoPath Scenario.env (js "/ftl/canon.md") = js "docs/ftl/canon.md".
Proof. reflexivity. Qed.

Example buildRepoPath_trailing_slash_in_base :
  buildRepoPath
    {| GITHUB_OWNER := []; GITHUB_REPO := []; GITHUB_BRANCH := []; GITHUB_TOKEN := [];
       DOCS_BASE_DIR := Some (js "docs/"); DOCSTORE_API_TOKEN := None |}
    (js "notes/test.md")
  = js "docs/notes/test.md".
Proof. reflexivity. Qed.

Example normalizeBaseDir_default :
  normalizeBaseDir
    {| GITHUB_OWNER := []; GITHUB_REPO := []; GITHUB_BRANCH := []; GITHUB_TOKEN := [];
       DOCS_BASE_DIR := None; DOCSTORE_API_TOKEN := None |}
  = js "docs".
Proof. reflexivity. Qed.

(** C4, evaluated on the code: with the base directory [docs], the path
    [docs] is mapped to [docs/docs] and [docs/x] to [docs/docs/x], so an
    input that already carries the prefix is prefixed again and the mapping
    is not idempotent on its own output.  (test/github.test.js expects
    [docs] and [docs/ftl/canon.md] to come back unchanged.) *)
Theorem buildRepoPath_prefixes_twice :
  buildRepoPath Scenario.env (js "docs") = js "docs/docs"
  /\ buildRepoPath Scenario.env (js "docs/x") = js "docs/docs/x"
  /\ buildRepoPath Scenario.env (js "/docs/ftl/canon.md") = js "docs/docs/ftl/canon.md"
  /\ buildRepoPath Scenario.env (buildRepoPath Scenario.env (js "x"))
     <> buildRepoPath Scenario.env (js "x").
Proof. repeat split; try reflexivity. vm_compute. discriminate. Qed.

(** C5: for every configuration and every logical path [p], mapping [p] to
    its repository path and back gives [p] without its leading slashes; the
    base directory itself maps to the empty path, and a repository path
    outside the base directory is returned unchanged. *)
Theorem logicalPathFromGitPath_buildRepoPath (env : Env) (p : jstring) :
  logicalPathFromGitPath env (buildRepoPath env p) = strip_leading_slashes p
  /\ logicalPathFromGitPath env (normalizeBaseDir env) = []
  /\ (forall r : jstring,
        r <> normalizeBaseDir env ->
        startsWith (normalizeBaseDir env ++ js "/") r = false ->
        logicalPathFromGitPath env r = r).
Proof.
  repeat split.
  - unfold logicalPathFromGitPath, buildRepoPath.
    destruct (negb (nonempty p) || JsString.eqb p (js "/")) eqn:E.
    + rewrite eqb_refl.
      apply orb_true_iff in E as [E|E].
      * destruct p; [reflexivity|discriminate].
      * apply eqb_eq in E. subst p. reflexivity.
    + set (base := normalizeBaseDir env).
      set (cleaned := strip_leading_slashes p).
      assert (N : JsString.eqb (base ++ js "/" ++ cleaned) base = false).
      { apply eqb_neq, app_longer. discriminate. }
      rewrite N, app_assoc, startsWith_app.
      replace (List.length base + 1)%nat with (List.length (base ++ js "/"))
        by (rewrite length_app; reflexivity).
      apply skipn_prefix.
  - unfold logicalPathFromGitPath. now rewrite eqb_refl.
  - intros r Hne Hpre. unfold logicalPathFromGitPath.
    apply eqb_neq in Hne. now rewrite Hne, Hpre.
Qed.

Lemma logicalPathFromGitPath_buildRepoPath_witness :
  (js "other/x.md" <> normalizeBaseDir Scenario.env
   /\ startsWith (normalizeBaseDir Scenario.env ++ js "/") (js "other/x.md") = false)
  /\ logicalPathFromGitPath Scenario.env (buildRepoPath Scenario.env (js "/a/b.md")) = js "a/b.md"
  /\ logicalPathFromGitPath Scenario.env (js "other/x.md") = js "other/x.md".
Proof.
  assert (H1 : js "other/x.md" <> normalizeBaseDir Scenario.env)
    by (vm_compute; discriminate).
  assert (H2 : startsWith (normalizeBaseDir Scenario.env ++ js "/") (js "other/x.md") = false)
    by reflexivity.
  destruct (logicalPathFromGitPath_buildRepoPath Scenario.env (js "/a/b.md")) as (R & _ & O).
  split; [split; assumption|].
  split; [exact R|exact (O _ H1 H2)].
Defined.

(** ** URI components *)

Example encodeURIComponent_path :
  encodeURIComponent (js "docs/test.md") = js "docs%2Ftest.md".
Proof. reflexivity. Qed.

Example encodeURIComponent_unicode :
  encodeURIComponent [28450; 128536] = js "%E6%BC%A2%F0%9F%98%98".
Proof. reflexivity. Qed.

Example decodeURIComponent_unicode :
  decodeURIComponent (js "a%2Fb%E6%BC%A2%F0%9F%98%98c")
  = inr [97; 47; 98; 28450; 128536; 99].
Proof. reflexivity. Qed.

Example decodeURIComponent_malformed :
  decodeURIComponent (js "a%zz") = malformed
  /\ decodeURIComponent (js "%C0%80") = malformed
  /\ decodeURIComponent (js "%E6%BC") = malformed
  /\ decodeURIComponent (js "%ED%A0%80") = malformed.
Proof. repeat split. Qed.

(** ** Base64: [atob] undoes [btoa] on the strings [btoa] accepts *)

Module Base64Facts.
Import Base64.

Example btoa_hello :
  toBase64 workers_runtime (js "Hello world") = inr (js "SGVsbG8gd29ybGQ=").
Proof. reflexivity. Qed.

(** The content API wraps its base64 in lines; [atob] skips the line feeds. *)
Example atob_wrapped :
  fromBase64 workers_runtime (Some (JStr (js "SGVsbG8g" ++ [10] ++ js "d29ybGQ=" ++ [10])))
  = inr (js "Hello world").
Proof. reflexivity. Qed.

Ltac divmod := intros; zify; Z.to_euclidean_division_equations; lia.

Lemma first_byte (a b : N) :
  b <= 255 -> (a / 4) * 4 + ((a mod 4) * 16 + b / 16) / 16 = a.
Proof. divmod. Qed.

Lemma second_byte (a b c : N) :
  b <= 255 -> c <= 255 ->
  (((a mod 4) * 16 + b / 16) mod 16) * 16 + ((b mod 16) * 4 + c / 64) / 4 = b.
Proof. divmod. Qed.

Lemma third_byte (b c : N) :
  c <= 255 -> (((b mod 16) * 4 + c / 64) mod 4) * 64 + c mod 64 = c.
Proof. divmod. Qed.

(** Induction three bytes at a time, as the encoder consumes them. *)
Lemma triples_ind (P : list N -> Prop) :
  P [] -> (forall a, P [a]) -> (forall a b, P [a; b]) ->
  (forall a b c l, P l -> P (a :: b :: c :: l)) ->
  forall l, P l.
Proof.
  intros H0 H1 H2 H3 l.
  enough (A : P l /\ (forall a, P (a :: l)) /\ (forall a b, P (a :: b :: l))) by apply A.
  induction l as [|x l (IH0 & IH1 & IH2)]; [auto|].
  split; [apply IH1|]. split; [intros a; apply IH2|]. intros a b. apply H3, IH0.
Qed.

Lemma latin1_cons (c : N) (s : jstring) :
  latin1 (c :: s) = true -> c <= 255 /\ latin1 s = true.
Proof.
  unfold latin1. simpl. intros H. apply andb_true_iff in H as [H1 H2].
  apply N.leb_le in H1. auto.
Qed.

Lemma bytes_of_sextets_of_bytes (s : list N) :
  latin1 s = true -> bytes_of_sextets (sextets_of_bytes s) = s.
Proof.
  induction s as [|a|a b|a b c l IH] using triples_ind; intros L.
  - reflexivity.
  - cbn [sextets_of_bytes bytes_of_sextets]. f_equal. divmod.
  - apply latin1_cons in L as (_ & L). apply latin1_cons in L as (Hb & _).
    cbn [sextets_of_bytes bytes_of_sextets]. f_equal; [|f_equal]; divmod.
  - apply latin1_cons in L as (_ & L). apply latin1_cons in L as (Hb & L).
    apply latin1_cons in L as (Hc & L).
    cbn [sextets_of_bytes bytes_of_sextets].
    rewrite (first_byte a b Hb), (second_byte a b c Hb Hc), (third_byte b c Hc), (IH L).
    reflexivity.
Qed.

Lemma sextets_small (s : list N) :
  latin1 s = true -> Forall (fun x => x < 64) (sextets_of_bytes s).
Proof.
  induction s as [|a|a b|a b c l IH] using triples_ind; intros L.
  - constructor.
  - apply latin1_cons in L as (Ha & _).
    cbn [sextets_of_bytes]. repeat constructor; divmod.
  - apply latin1_cons in L as (Ha & L). apply latin1_cons in L as (Hb & _).
    cbn [sextets_of_bytes]. repeat constructor; divmod.
  - apply latin1_cons in L as (Ha & L). apply latin1_cons in L as (Hb & L).
    apply latin1_cons in L as (Hc & L).
    cbn [sextets_of_bytes]. repeat (constructor; [divmod|]). auto.
Qed.

Lemma sextet_of_char_of_sextet (n : N) :
  n < 64 -> sextet_of_char (char_of_sextet n) = Some n.
Proof.
  intros H. destruct n as [|p]; [reflexivity|].
  do 6 (destruct p as [p|p|]; try reflexivity); lia.
Qed.

Lemma char_of_sextet_plain (n : N) :
  char_of_sextet n <> equals_sign /\ is_ascii_whitespace (char_of_sextet n) = false.
Proof.
  unfold char_of_sextet, equals_sign, is_ascii_whitespace.
  destruct (N.ltb_spec n 26); [|destruct (N.ltb_spec n 52);
    [|destruct (N.ltb_spec n 62); [|destruct (N.eqb_spec n 62)]]];
    (split; [lia|]);
    repeat (apply orb_false_iff; split); apply N.eqb_neq; lia.
Qed.

Lemma sextets_of_chars_of_sextets (xs : list N) :
  Forall (fun x => x < 64) xs ->
  sextets_of_chars (map char_of_sextet xs) = Some xs.
Proof.
  induction 1 as [|x xs Hx _ IH]; [reflexivity|].
  cbn [map sextets_of_chars]. now rewrite (sextet_of_char_of_sextet x Hx), IH.
Qed.

Lemma mod3_step (n : nat) : Nat.modulo (S (S (S n))) 3 = Nat.modulo n 3.
Proof.
  replace (S (S (S n))) with (n + 1 * 3)%nat by lia. apply Nat.Div0.mod_add.
Qed.

Lemma mod4_step (n : nat) : Nat.modulo (S (S (S (S n)))) 4 = Nat.modulo n 4.
Proof.
  replace (S (S (S (S n)))) with (n + 1 * 4)%nat by lia. apply Nat.Div0.mod_add.
Qed.

Lemma padding_step (n : nat) : padding (S (S (S n))) = padding n.
Proof. unfold padding. now rewrite mod3_step. Qed.

Lemma padding_cases (n : nat) :
  padding n = [] \/ padding n = [equals_sign] \/ padding n = [equals_sign; equals_sign].
Proof.
  unfold padding. destruct (Nat.modulo n 3) as [|[|[|k]]]; auto.
Qed.

Lemma encode_length (s : list N) :
  Nat.modulo (List.length (encode s)) 4 = 0%nat
  /\ Nat.modulo (List.length (body s)) 4 <> 1%nat.
Proof.
  unfold encode. fold (body s).
  induction s as [|a|a b|a b c l IH] using triples_ind;
    try (split; [reflexivity|discriminate]).
  unfold body in *. cbn [sextets_of_bytes map List.length app].
  rewrite padding_step. cbn [app List.length]. now rewrite !mod4_step.
Qed.

Lemma body_plain (s : list N) :
  Forall (fun c => c <> equals_sign /\ is_ascii_whitespace c = false) (body s).
Proof.
  unfold body. induction (sextets_of_bytes s) as [|x xs IH]; constructor; auto.
  apply char_of_sextet_plain.
Qed.

Lemma filter_plain (s : jstring) :
  Forall (fun c => is_ascii_whitespace c = false) s ->
  filter (fun c => negb (is_ascii_whitespace c)) s = s.
Proof.
  induction 1 as [|c s Hc _ IH]; [reflexivity|].
  cbn [filter]. now rewrite Hc, IH.
Qed.

Lemma encode_has_no_whitespace (s : list N) :
  filter (fun c => negb (is_ascii_whitespace c)) (encode s) = encode s.
Proof.
  apply filter_plain. unfold encode. fold (body s). apply Forall_app. split.
  - eapply Forall_impl; [|apply body_plain]. now intros c [_ H].
  - destruct (padding_cases (List.length s)) as [E|[E|E]]; rewrite E;
      repeat constructor.
Qed.

Lemma strip_padding_plain (b : jstring) :
  Forall (fun c => c <> equals_sign) b -> strip_padding b = b.
Proof.
  intros F. unfold strip_padding.
  assert (R : Forall (fun c => c <> equals_sign) (rev b)) by now apply Forall_rev.
  destruct (rev b) as [|e1 [|e2 r]]; [reflexivity| |].
  - inversion R as [|? ? H1 _]; subst. apply N.eqb_neq in H1. now rewrite H1.
  - inversion R as [|? ? H1 _]; subst. apply N.eqb_neq in H1. now rewrite H1.
Qed.

Lemma strip_padding_encode (s : list N) : strip_padding (encode s) = body s.
Proof.
  unfold encode. fold (body s).
  assert (F : Forall (fun c => c <> equals_sign) (body s)).
  { eapply Forall_impl; [|apply body_plain]. now intros c [H _]. }
  destruct (padding_cases (List.length s)) as [E|[E|E]]; rewrite E.
  - rewrite app_nil_r. now apply strip_padding_plain.
  - unfold strip_padding. rewrite rev_app_distr. cbn [rev app].
    apply Forall_rev in F. pose proof (rev_involutive (body s)) as RI.
    destruct (rev (body s)) as [|e2 r]; rewrite N.eqb_refl; [exact RI|].
    inversion F as [|? ? H2 _]; subst.
    apply N.eqb_neq in H2. rewrite H2. exact RI.
  - unfold strip_padding. rewrite rev_app_distr. cbn [rev app].
    rewrite !N.eqb_refl. apply rev_involutive.
Qed.

Lemma decode_encode (s : list N) : latin1 s = true -> decode (encode s) = Some s.
Proof.
  intros L. unfold decode. rewrite encode_has_no_whitespace.
  destruct (encode_length s) as [E4 E1]. rewrite E4. cbn [Nat.eqb].
  rewrite strip_padding_encode.
  apply Nat.eqb_neq in E1. rewrite E1. unfold body.
  rewrite (sextets_of_chars_of_sextets _ (sextets_small s L)). cbn [option_map].
  now rewrite (bytes_of_sextets_of_bytes s L).
Qed.

(** On a runtime with [btoa] and [atob], a string whose code points are
    all at most U+00FF is encoded, and decoding the result gives it back. *)
Lemma roundtrip_latin1 (s : jstring) :
  latin1 s = true ->
  toBase64 workers_runtime s = inr (encode s)
  /\ fromBase64 workers_runtime (Some (JStr (encode s))) = inr s.
Proof.
  intros L. split.
  - unfold toBase64, workers_runtime, rt_btoa, btoa. fold (latin1 s). now rewrite L.
  - unfold fromBase64, workers_runtime, rt_atob, atob, to_String_val, to_String.
    now rewrite (decode_encode s L).
Qed.

(** [btoa] throws exactly on the strings with a code point above U+00FF. *)
Lemma toBase64_throws_iff (s : jstring) :
  (exists e, toBase64 workers_runtime s = inl e) <-> latin1 s = false.
Proof.
  unfold toBase64, workers_runtime, rt_btoa, btoa. fold (latin1 s).
  destruct (latin1 s); split.
  - intros [e H]. discriminate.
  - discriminate.
  - reflexivity.
  - intros _. eexists. reflexivity.
Qed.

End Base64Facts.

(** ** Reading a property *)

Lemma prop_field (v : json) (k : jstring) :
  v <> JNull -> prop (Some v) k = inr (field v k).
Proof. destruct v; [contradiction| | | | |]; reflexivity. Qed.

Lemma prop_null (k : jstring) : exists m, prop (Some JNull) k = inl (TypeError m).
Proof. eexists; reflexivity. Qed.

Lemma or_else_default (s : jstring) : or_else (Some s) [] = s.
Proof. destruct s; reflexivity. Qed.

(** ** The content-store client *)

Section ClientProperties.

Variable rt : runtime.
Variable store : backend.

(** One request is one logged call. *)
Lemma githubRequest_run (method path : jstring) (env : Env) (body : option json)
      (log : list call) :
  githubRequest store method path env body log
  = (outcome (store log (github_call method path env body)),
     log ++ [github_call method path env body]).
Proof.
  unfold githubRequest, bind, fetch_call, outcome.
  destruct (store log (github_call method path env body)) as [m|status json];
    [reflexivity|].
  destruct (res_ok status); reflexivity.
Qed.

Lemma getFile_run (env : Env) (docPath : jstring) (log : list call) :
  getFile store env docPath log
  = (outcome (store log (get_call env docPath)), log ++ [get_call env docPath]).
Proof. apply githubRequest_run. Qed.

Lemma two_calls (log : list call) (a b : call) : (log ++ [a]) ++ [b] = log ++ [a; b].
Proof. now rewrite <- app_assoc. Qed.

(** [putFile] unfolded along its three steps: the discovery read, the
    encoding of the content, the write. *)
Lemma putFile_run (env : Env) (docPath content : jstring)
      (commitMessage : option jstring) (log : list call) :
  let g := get_call env docPath in
  let repoPath := buildRepoPath env docPath in
  putFile rt store env docPath content commitMessage log
  = match discovered_sha (store log g) with
    | inl e => (inl e, log ++ [g])
    | inr existingSha =>
        match toBase64 rt content with
        | inl e => (inl e, log ++ [g])
        | inr encoded =>
            let w := put_call env docPath
                       (or_else commitMessage
                          (if truthy existingSha then js "Update " ++ repoPath
                           else js "Create " ++ repoPath))
                       encoded (if truthy existingSha then existingSha else None) in
            (outcome (store (log ++ [g]) w), log ++ [g; w])
        end
    end.
Proof.
  intros g repoPath.
  unfold putFile, bind at 1, try_catch, bind at 1.
  rewrite getFile_run. fold g. unfold discovered_sha.
  destruct (outcome (store log g)) as [err|current].
  - destruct (status_is_404 err) eqn:E; simpl; [|reflexivity].
    unfold bind. destruct (toBase64 rt content) as [e|encoded]; [reflexivity|].
    simpl. rewrite githubRequest_run, two_calls. reflexivity.
  - destruct (prop (Some current) (js "sha")) as [e|sha] eqn:P; simpl.
    + assert (E : status_is_404 e = false)
        by (destruct current; simpl in P; inversion P; reflexivity).
      rewrite E. reflexivity.
    + unfold bind.
      destruct (toBase64 rt content) as [e|encoded]; [reflexivity|].
      simpl. rewrite githubRequest_run, two_calls.
      destruct (truthy sha) eqn:T; [|reflexivity].
      destruct sha; [reflexivity|discriminate].
Qed.


(** When [toBase64] throws, [putFile] stops after the discovery read: the
    exception is propagated and no write is issued. *)
Lemma putFile_unencodable (env : Env) (docPath content : jstring)
      (commitMessage : option jstring) (log : list call) (e : error) (sha : jsval) :
  toBase64 rt content = inl e ->
  discovered_sha (store log (get_call env docPath)) = inr sha ->
  putFile rt store env docPath content commitMessage log
  = (inl e, log ++ [get_call env docPath]).
Proof.
  intros Henc Hsha. pose proof (putFile_run env docPath content commitMessage log) as R.
  cbv zeta in R. now rewrite R, Hsha, Henc.
Qed.

(** [deleteFile] unfolded along its steps: the read, [current.sha], the
    delete. *)
Lemma deleteFile_run (env : Env) (docPath : jstring)
      (commitMessage : option jstring) (log : list call) :
  let g := get_call env docPath in
  deleteFile store env docPath commitMessage log
  = match outcome (store log g) with
    | inl e => (inl e, log ++ [g])
    | inr current =>
        match prop (Some current) (js "sha") with
        | inl e => (inl e, log ++ [g])
        | inr sha =>
            let d := delete_call env docPath
                       (or_else commitMessage (js "Delete " ++ buildRepoPath env docPath))
                       sha in
            (outcome (store (log ++ [g]) d), log ++ [g; d])
        end
    end.
Proof.
  intros g. unfold deleteFile, bind at 1. rewrite getFile_run. fold g.
  destruct (outcome (store log g)) as [e|current]; [reflexivity|].
  unfold bind. destruct (prop (Some current) (js "sha")) as [e|sha]; [reflexivity|].
  simpl. rewrite githubRequest_run, two_calls. reflexivity.
Qed.

Lemma deleteFile_not_found (env : Env) (docPath : jstring)
      (commitMessage : option jstring) (log : list call) (body : json) :
  store log (get_call env docPath) = Http 404 body ->
  deleteFile store env docPath commitMessage log
  = (inl (GithubError 404 (error_message 404 body) body), log ++ [get_call env docPath]).
Proof.
  intros H. pose proof (deleteFile_run env docPath commitMessage log) as R.
  cbv zeta in R. rewrite R, H. reflexivity.
Qed.

Lemma deleteFile_calls (env : Env) (docPath : jstring)
      (commitMessage : option jstring) (log : list call) (status : N) (current : json) :
  store log (get_call env docPath) = Http status current ->
  res_ok status = true ->
  current <> JNull ->
  snd (deleteFile store env docPath commitMessage log)
  = log ++ [ get_call env docPath;
             delete_call env docPath
               (or_else commitMessage (js "Delete " ++ buildRepoPath env docPath))
               (field current (js "sha")) ].
Proof.
  intros H Hok Hnn. pose proof (deleteFile_run env docPath commitMessage log) as R.
  cbv zeta in R. rewrite R, H. unfold outcome.
  rewrite Hok, (prop_field _ _ Hnn). reflexivity.
Qed.

Lemma listDocs_run (env : Env) (dirPath : option jstring) (log : list call) :
  listDocs store env dirPath log
  = (match outcome (store log (list_call env dirPath)) with
     | inl e => inl e
     | inr res => inr (match res with JArr items => items | _ => [res] end)
     end,
     log ++ [list_call env dirPath]).
Proof.
  unfold listDocs, bind. rewrite githubRequest_run. fold (list_call env dirPath).
  destruct (outcome (store log (list_call env dirPath))) as [e|res]; [reflexivity|].
  destruct res; reflexivity.
Qed.

End ClientProperties.

(** ** The request router *)

Section RouterProperties.

Variable rt : runtime.
Variable store : backend.

Lemma not_health_check (request : Request) (rest : jstring) :
  req_pathname request = js "/docs" ++ rest ->
  is_health_check request = false.
Proof. intros E. unfold is_health_check. rewrite E. reflexivity. Qed.

(** An authorized [DELETE /docs/<rest>] reaches the delete handler with
    the decoded remainder as the document path. *)
Lemma route_delete (request : Request) (env : Env) (rest docPath : jstring) :
  checkAuth request env = AuthOk ->
  req_method request = js "DELETE" ->
  req_pathname request = js "/docs/" ++ rest ->
  decodeURIComponent rest = inr docPath ->
  route rt store request env = handle_delete store request env docPath.
Proof.
  intros Hauth Hm Hp Hd. unfold route. rewrite Hauth, Hm, Hp.
  simpl. rewrite Hd. reflexivity.
Qed.

(** An authorized [GET /docs] reaches the listing handler. *)
Lemma route_list (request : Request) (env : Env) :
  checkAuth request env = AuthOk ->
  req_method request = js "GET" ->
  req_pathname request = js "/docs" ->
  route rt store request env = handle_list store request env.
Proof.
  intros Hauth Hm Hp. unfold route. rewrite Hauth, Hm, Hp. reflexivity.
Qed.

(** The delete handler with a body that is not [null]. *)
Lemma handle_delete_run (request : Request) (env : Env) (docPath : jstring)
      (log : list call) :
  req_json request <> Some JNull ->
  let commitMessage :=
    is_string (field (match req_json request with Some b => b | None => JObj [] end)
                     (js "message")) in
  handle_delete store request env docPath log
  = match deleteFile store env docPath commitMessage log with
    | (inl err, log') =>
        (inr (if status_is_404 err then notFound (js "Document not found")
              else internal_error err), log')
    | (inr result, log') =>
        match prop (Some result) (js "commit") with
        | inl err => (inr (internal_error err), log')
        | inr commit =>
            match prop commit (js "sha"), prop commit (js "message") with
            | inr csha, inr cmessage =>
                (inr (jsonResponse
                        (obj [ (js "path", Some (JStr docPath));
                               (js "commit",
                                 Some (obj [(js "sha", csha); (js "message", cmessage)])) ])
                        200), log')
            | inl err, _ | _, inl err => (inr (internal_error err), log')
            end
        end
    end.
Proof.
  intros Hbody. cbv zeta. unfold handle_delete.
  set (body := match req_json request with Some b => b | None => JObj [] end).
  set (commitMessage := is_string (field body (js "message"))).
  assert (Hnn : body <> JNull).
  { subst body. destruct (req_json request) as [b|]; [|discriminate].
    intros ->. now apply Hbody. }
  unfold bind at 1. rewrite (prop_field _ _ Hnn). simpl. fold commitMessage.
  unfold try_catch. unfold bind at 1.
  destruct (deleteFile store env docPath commitMessage log) as [[err|result] log'].
  - destruct (status_is_404 err); reflexivity.
  - destruct result as [| | | | |fields]; try reflexivity.
    unfold bind, lift, prop at 1 4, field.
    destruct (lookup (js "commit") fields) as [[]|]; reflexivity.
Qed.

(** The delete handler always answers, never with a 400, after exactly
    the calls of [deleteFile]; a failure of [deleteFile] is rendered by
    its status. *)
Lemma handle_delete_answers (request : Request) (env : Env) (docPath : jstring)
      (log : list call) :
  req_json request <> Some JNull ->
  let commitMessage :=
    is_string (field (match req_json request with Some b => b | None => JObj [] end)
                     (js "message")) in
  let run := deleteFile store env docPath commitMessage log in
  exists response,
    handle_delete store request env docPath log = (inr response, snd run)
    /\ res_status response <> 400
    /\ (forall e, fst run = inl e ->
          response = if status_is_404 e then notFound (js "Document not found")
                     else internal_error e).
Proof.
  intros Hbody. pose proof (handle_delete_run request env docPath log Hbody) as D.
  cbv zeta in *. rewrite D. clear D.
  destruct (deleteFile store env docPath _ log) as [[err|result] log'].
  - eexists. split; [reflexivity|]. split.
    + destruct (status_is_404 err); discriminate.
    + intros e E. simpl in E. now inversion E.
  - destruct (prop (Some result) (js "commit")) as [err|commit].
    { eexists. split; [reflexivity|]. split; [discriminate|]. discriminate. }
    destruct (prop commit (js "sha")) as [err|csha].
    { eexists. split; [reflexivity|]. split; [discriminate|]. discriminate. }
    destruct (prop commit (js "message")) as [err|cmessage];
      eexists; (split; [reflexivity|]); (split; [discriminate|]); discriminate.
Qed.


(** C10: an authorized [DELETE /docs/<path>] whose body is absent or is
    not JSON is not answered 400; the handler runs [deleteFile] without a
    commit message, and when the get succeeds the delete call carries the
    default message [Delete <repositoryPath>]. *)
Theorem delete_without_body (request : Request) (env : Env)
        (rest docPath : jstring) (log : list call) :
  checkAuth request env = AuthOk ->
  req_method request = js "DELETE" ->
  req_pathname request = js "/docs/" ++ rest ->
  decodeURIComponent rest = inr docPath ->
  req_json request = None ->
  let g := get_call env docPath in
  let answer := fetch rt store request env log in
  res_status (fst answer) <> 400
  /\ snd answer = snd (deleteFile store env docPath None log)
  /\ (forall status current,
        store log g = Http status current -> res_ok status = true ->
        current <> JNull ->
        snd answer
        = log ++ [g; delete_call env docPath
                       (js "Delete " ++ buildRepoPath env docPath)
                       (field current (js "sha"))]).
Proof.
  intros Hauth Hm Hp Hd Hjson g answer. subst g answer.
  assert (Hbody : req_json request <> Some JNull) by (rewrite Hjson; discriminate).
  unfold fetch. rewrite (route_delete request env rest docPath Hauth Hm Hp Hd).
  destruct (handle_delete_answers request env docPath log Hbody)
    as (response & E & S & _).
  cbv zeta in E. rewrite Hjson in E.
  change (is_string (field (JObj []) (js "message"))) with (@None jstring) in E.
  rewrite E. simpl fst. simpl snd.
  split; [exact S|]. split; [reflexivity|].
  intros status current H Hok Hnn.
  now rewrite (deleteFile_calls store env docPath None log status current H Hok Hnn).
Qed.

Lemma checkAuth_ok (request : Request) (env : Env) :
  checkAuth request env = AuthOk
  <-> is_health_check request = true
      \/ exists token,
           DOCSTORE_API_TOKEN env = Some token /\ token <> []
           /\ req_authorization request = Some (js "Bearer " ++ token).
Proof.
  unfold checkAuth. destruct (is_health_check request); [tauto|].
  destruct (DOCSTORE_API_TOKEN env) as [token|].
  2:{ split; [discriminate|]. intros [H|(t & H & _)]; discriminate. }
  destruct token as [|c token]; cbn [nonempty negb].
  { split; [discriminate|]. intros [H|(t & H & Hne & _)]; [discriminate|].
    inversion H; subst. contradiction. }
  destruct (JsString.eqb (or_else (req_authorization request) [])
              (js "Bearer " ++ c :: token)) eqn:E; cbn [negb].
  - split; [intros _|reflexivity]. right. exists (c :: token).
    split; [reflexivity|]. split; [discriminate|].
    apply eqb_eq in E. apply (or_else_some _ []); [discriminate|exact E].
  - split; [discriminate|]. intros [H|(t & H & _ & A)]; [discriminate|].
    inversion H; subst t. apply eqb_neq in E. exfalso. apply E.
    rewrite A. apply or_else_default.
Qed.

(** C3: the health check [GET /] is answered without any credential.
    Every other request is answered 500 when the server-side token is
    missing or empty, and 401 when its [Authorization] header is not
    exactly [Bearer <token>]; in both cases no call reaches the backing
    store.  A request passes the gate only if it is the health check or
    carries exactly that header. *)
Theorem auth_gate (request : Request) (env : Env) (log : list call) :
  let answer := fetch rt store request env log in
  (is_health_check request = true ->
     answer = (jsonResponse (obj [(js "status", Some (JStr (js "ok")))]) 200, log))
  /\ (is_health_check request = false ->
       DOCSTORE_API_TOKEN env = None \/ DOCSTORE_API_TOKEN env = Some [] ->
       res_status (fst answer) = 500 /\ snd answer = log)
  /\ (is_health_check request = false ->
       forall token, DOCSTORE_API_TOKEN env = Some token -> token <> [] ->
       req_authorization request <> Some (js "Bearer " ++ token) ->
       res_status (fst answer) = 401 /\ snd answer = log)
  /\ (checkAuth request env = AuthOk
       <-> is_health_check request = true
           \/ exists token,
                DOCSTORE_API_TOKEN env = Some token /\ token <> []
                /\ req_authorization request = Some (js "Bearer " ++ token)).
Proof.
  intros answer. subst answer. unfold fetch, route.
  split; [|split; [|split]].
  - intros H. unfold checkAuth. rewrite H.
    unfold is_health_check in H. rewrite H. reflexivity.
  - intros H T. unfold checkAuth. rewrite H.
    destruct T as [T|T]; rewrite T; split; reflexivity.
  - intros H token T Hne A. unfold checkAuth. rewrite H, T.
    destruct token as [|c token]; [contradiction|]. cbn [nonempty negb].
    assert (E : JsString.eqb (or_else (req_authorization request) [])
                  (js "Bearer " ++ c :: token) = false).
    { apply eqb_neq. intros E. apply A.
      apply (or_else_some _ []); [discriminate|exact E]. }
    rewrite E. split; reflexivity.
  - apply checkAuth_ok.
Qed.

(** C8: when the listing call succeeds, [listDocs] returns the elements of
    the body if the body is an array and the one-element list of the body
    otherwise, so its caller always has a list; for a body that is a single
    object the router answers [GET /docs] with an [items] array of exactly
    one entry. *)
Theorem listDocs_returns_sequence (env : Env) (dirPath : option jstring)
        (log : list call) (status : N) (body : json) :
  store log (list_call env dirPath) = Http status body ->
  res_ok status = true ->
  listDocs store env dirPath log
  = (inr (match body with JArr items => items | _ => [body] end),
     log ++ [list_call env dirPath])
  /\ (forall (request : Request) (fields : list (jstring * json)),
        checkAuth request env = AuthOk ->
        req_method request = js "GET" ->
        req_pathname request = js "/docs" ->
        dirPath = Some (or_else (req_dir request) []) ->
        body = JObj fields ->
        fetch rt store request env log
        = (jsonResponse
             (obj [(js "items",
                     Some (JArr [obj [ (js "name", lookup (js "name") fields);
                                       (js "path", lookup (js "path") fields);
                                       (js "type", lookup (js "type") fields) ]]))])
             200,
           log ++ [list_call env dirPath])).
Proof.
  intros H Hok.
  assert (L : listDocs store env dirPath log
              = (inr (match body with JArr items => items | _ => [body] end),
                 log ++ [list_call env dirPath])).
  { rewrite listDocs_run, H. unfold outcome. now rewrite Hok. }
  split; [exact L|].
  intros request fields Hauth Hm Hp Hdir Hbody.
  unfold fetch. rewrite (route_list request env Hauth Hm Hp).
  unfold handle_list, bind at 1. rewrite <- Hdir, L, Hbody. reflexivity.
Qed.

End RouterProperties.

(** ** The scenarios, run on the model *)

Import Scenario.





Lemma auth_gate_witness :
  (is_health_check anonymous_request = false
   /\ req_authorization anonymous_request <> Some (js "Bearer " ++ js "api-token"))
  /\ res_status (fst (fetch workers_runtime (store_with existing_file) anonymous_request env []))
     = 401
  /\ snd (fetch workers_runtime (store_with existing_file) anonymous_request env []) = [].
Proof.
  assert (A : req_authorization anonymous_request <> Some (js "Bearer " ++ js "api-token"))
    by discriminate.
  split; [split; [reflexivity|exact A]|].
  destruct (auth_gate workers_runtime (store_with existing_file) anonymous_request env [])
    as (_ & _ & U & _).
  refine (U eq_refl (js "api-token") eq_refl _ A). discriminate.
Defined.

Lemma listDocs_returns_sequence_witness :
  (store_with single_file [] (list_call env (Some (js "ftl"))) = Http 200 single_file
   /\ res_ok 200 = true)
  /\ fst (listDocs (store_with single_file) env (Some (js "ftl")) []) = inr [single_file]
  /\ fst (fetch workers_runtime (store_with single_file) list_request env [])
     = jsonResponse
         (obj [(js "items",
                 Some (JArr [obj [ (js "name", Some (JStr (js "ftl")));
                                   (js "path", Some (JStr (js "docs/ftl")));
                                   (js "type", Some (JStr (js "file"))) ]]))])
         200.
Proof.
  split; [split; reflexivity|].
  destruct (listDocs_returns_sequence workers_runtime (store_with single_file) env
              (Some (js "ftl")) [] 200 single_file eq_refl eq_refl) as (L & R).
  split.
  - now rewrite L.
  - now rewrite (R list_request _ eq_refl eq_refl eq_refl eq_refl eq_refl).
Defined.

Lemma delete_without_body_witness :
  (checkAuth delete_request env = AuthOk
   /\ decodeURIComponent (js "test.md") = inr (js "test.md")
   /\ req_json delete_request = None)
  /\ res_status (fst (fetch workers_runtime (store_with existing_file) delete_request env []))
     <> 400
  /\ snd (fetch workers_runtime (store_with existing_file) delete_request env [])
     = [ get_call env (js "test.md");
         delete_call env (js "test.md") (js "Delete docs/test.md")
           (Some (JStr (js "sha-file"))) ].
Proof.
  split; [repeat split|].
  destruct (delete_without_body workers_runtime (store_with existing_file) delete_request
              env (js "test.md") (js "test.md") [] eq_refl eq_refl eq_refl eq_refl eq_refl)
    as (S & _ & C).
  split; [exact S|].
  refine (C 200 existing_file eq_refl eq_refl _). discriminate.
Defined.

(** C6, evaluated on the code: scenario A issues the get and one write
    without [sha] on the configured branch, but the response echoes the
    repository path [docs/test.md] of the backing store, where the logical
    path is [test.md].  ([testWorkerPutResponsePathNormalized] expects
    [test.md].) *)
Theorem put_response_keeps_repository_path :
  fetch workers_runtime empty_store put_request env []
  = (jsonResponse
       (obj [ (js "path", Some (JStr (js "docs/test.md")));
              (js "name", Some (JStr (js "test.md")));
              (js "sha", Some (JStr (js "sha123")));
              (js "commit",
                Some (obj [ (js "sha", Some (JStr (js "commitsha")));
                            (js "message", Some (JStr (js "Create docs/test.md"))) ])) ])
       200,
     [ get_call env (js "test.md");
       put_call env (js "test.md") (js "Create test.md") (js "SGVsbG8gd29ybGQ=") None ])
  /\ c_body (put_call env (js "test.md") (js "Create test.md") (js "SGVsbG8gd29ybGQ=") None)
     = Some (obj [ (js "message", Some (JStr (js "Create test.md")));
                   (js "content", Some (JStr (js "SGVsbG8gd29ybGQ=")));
                   (js "branch", Some (JStr (GITHUB_BRANCH env))) ])
  /\ logicalPathFromGitPath env (js "docs/test.md") = js "test.md"
  /\ js "docs/test.md" <> js "test.md".
Proof. repeat split; try reflexivity. vm_compute. discriminate. Qed.

(** The listing handler copies [item.path] as the backing store sent it,
    for every entry. *)
Lemma map_items_keeps_path (entries : list (list (jstring * json))) :
  map_items (map JObj entries)
  = inr (map (fun fields => obj [ (js "name", lookup (js "name") fields);
                                  (js "path", lookup (js "path") fields);
                                  (js "type", lookup (js "type") fields) ])
             entries).
Proof.
  induction entries as [|fields entries IH]; [reflexivity|].
  cbn [map map_items]. rewrite IH. reflexivity.
Qed.

(** An emoji in the content: the put stops after the read, nothing is written. *)
Example put_unicode_content_is_not_written :
  exists m,
    putFile workers_runtime empty_store env (js "test.md") unicode_text None []
    = (inl (InvalidCharacterError m), [get_call env (js "test.md")]).
Proof. eexists. reflexivity. Qed.

(** C7, evaluated on the code: a listing of [ftl] returns the entry with the
    repository path [docs/ftl/canon.md] the backing store reported; its
    logical form would be [ftl/canon.md]. *)
Theorem listing_keeps_repository_paths :
  fetch workers_runtime (store_with directory_listing) list_request env []
  = (jsonResponse
       (obj [(js "items",
               Some (JArr [obj [ (js "name", Some (JStr (js "canon.md")));
                                 (js "path", Some (JStr (js "docs/ftl/canon.md")));
                                 (js "type", Some (JStr (js "file"))) ]]))])
       200,
     [list_call env (Some (js "ftl"))])
  /\ logicalPathFromGitPath env (js "docs/ftl/canon.md") = js "ftl/canon.md"
  /\ js "docs/ftl/canon.md" <> js "ftl/canon.md".
Proof. repeat split; try reflexivity. vm_compute. discriminate. Qed.

(** C9, evaluated on the code: on a runtime that has [btoa], [toBase64]
    throws on the text of [testBase64UnicodeRoundTrip] (an emoji and two
    ideographs) and on a single ideograph, so there is nothing to decode. *)
Theorem toBase64_throws_beyond_latin1 :
  (exists m, toBase64 workers_runtime unicode_text = inl (InvalidCharacterError m))
  /\ (exists m, toBase64 workers_runtime [28450] = inl (InvalidCharacterError m))
  /\ (forall encoded, toBase64 workers_runtime unicode_text <> inr encoded).
Proof.
  split; [eexists; reflexivity|]. split; [eexists; reflexivity|].
  intros encoded. vm_compute. discriminate.
Qed.

(** * Further properties of the code *)

(** ** Path mapping *)

Lemma strip_leading_head (s : jstring) :
  match strip_leading_slashes s with
  | c :: _ => c =? slash
  | [] => false
  end = false.
Proof.
  induction s as [|c r IH]; [reflexivity|].
  cbn [strip_leading_slashes]. destruct (c =? slash) eqn:E; [exact IH|exact E].
Qed.

Lemma strip_leading_repeat (n : nat) (s : jstring) :
  strip_leading_slashes (repeat slash n ++ s) = strip_leading_slashes s.
Proof. induction n as [|n IH]; [reflexivity|exact IH]. Qed.

Lemma strip_leading_fixed (s : jstring) :
  match s with c :: _ => c =? slash | [] => false end = false ->
  strip_leading_slashes s = s.
Proof. destruct s as [|c r]; [reflexivity|]. cbn [strip_leading_slashes]. now intros ->. Qed.

(** X1: whatever [DOCS_BASE_DIR] holds, the normalized base directory does
    not end with a slash. *)
Theorem normalizeBaseDir_no_trailing_slash (env : Env) :
  ends_with_slash (normalizeBaseDir env) = false.
Proof.
  unfold ends_with_slash, normalizeBaseDir, strip_trailing_slashes.
  rewrite rev_involutive. apply strip_leading_head.
Qed.

(** X2: a base directory configured with any number of trailing slashes is
    the same base directory: if [b] is not empty and does not end with a
    slash, [DOCS_BASE_DIR = b + "/"*n] normalizes to [b]. *)
Theorem normalizeBaseDir_trailing_slashes (env : Env) (b : jstring) (n : nat) :
  b <> [] ->
  ends_with_slash b = false ->
  DOCS_BASE_DIR env = Some (b ++ repeat slash n) ->
  normalizeBaseDir env = b.
Proof.
  intros Hb He Hd. unfold normalizeBaseDir. rewrite Hd.
  assert (O : or_else (Some (b ++ repeat slash n)) (js "docs") = b ++ repeat slash n).
  { destruct b; [contradiction|reflexivity]. }
  rewrite O. unfold strip_trailing_slashes.
  rewrite rev_app_distr, rev_repeat, strip_leading_repeat.
  rewrite (strip_leading_fixed (rev b) He). apply rev_involutive.
Qed.

Lemma normalizeBaseDir_trailing_slashes_witness :
  (js "docs" <> [] /\ ends_with_slash (js "docs") = false)
  /\ normalizeBaseDir
       {| GITHUB_OWNER := []; GITHUB_REPO := []; GITHUB_BRANCH := []; GITHUB_TOKEN := [];
          DOCS_BASE_DIR := Some (js "docs///"); DOCSTORE_API_TOKEN := None |}
     = js "docs".
Proof.
  assert (Hb : js "docs" <> []) by discriminate.
  assert (He : ends_with_slash (js "docs") = false) by reflexivity.
  split; [split; assumption|].
  apply (normalizeBaseDir_trailing_slashes _ (js "docs") 3 Hb He). reflexivity.
Defined.

(** X3: leading slashes of a logical path do not matter: for a path [p]
    that is not empty and does not start with a slash, [p] written with any
    number of leading slashes is mapped to [base + "/" + p]. *)
Theorem buildRepoPath_leading_slashes (env : Env) (n : nat) (c : N) (r : jstring) :
  c <> slash ->
  buildRepoPath env (repeat slash n ++ c :: r) = normalizeBaseDir env ++ js "/" ++ c :: r.
Proof.
  intros Hc. rewrite buildRepoPath_prefixes.
  - rewrite strip_leading_repeat. cbn [strip_leading_slashes].
    apply N.eqb_neq in Hc. now rewrite Hc.
  - destruct n; discriminate.
  - destruct n as [|[|n]]; cbn; intros E; inversion E. now apply Hc.
Qed.

Lemma buildRepoPath_leading_slashes_witness :
  102 <> slash
  /\ buildRepoPath Scenario.env (js "///ftl/canon.md") = js "docs/ftl/canon.md".
Proof.
  assert (Hc : 102 <> slash) by discriminate.
  split; [exact Hc|].
  exact (buildRepoPath_leading_slashes Scenario.env 3 102 (js "tl/canon.md") Hc).
Defined.

(** X4: two logical paths that are mapped to the same repository path are
    the same path up to leading slashes: distinct documents never share a
    file of the repository. *)
Theorem buildRepoPath_injective (env : Env) (p q : jstring) :
  buildRepoPath env p = buildRepoPath env q ->
  strip_leading_slashes p = strip_leading_slashes q.
Proof.
  assert (R : forall x, negb (nonempty x) || JsString.eqb x (js "/") = true ->
                        strip_leading_slashes x = []).
  { intros x H. apply orb_true_iff in H as [H|H].
    - destruct x; [reflexivity|discriminate].
    - apply eqb_eq in H. now subst x. }
  unfold buildRepoPath.
  destruct (negb (nonempty p) || JsString.eqb p (js "/")) eqn:Ep;
    destruct (negb (nonempty q) || JsString.eqb q (js "/")) eqn:Eq; intros E.
  - now rewrite (R p Ep), (R q Eq).
  - symmetry in E. apply app_longer in E; [contradiction|discriminate].
  - apply app_longer in E; [contradiction|discriminate].
  - apply app_inv_head in E. now inversion E.
Qed.

Lemma buildRepoPath_injective_witness :
  buildRepoPath Scenario.env (js "/a/b.md") = buildRepoPath Scenario.env (js "a/b.md")
  /\ strip_leading_slashes (js "/a/b.md") = strip_leading_slashes (js "a/b.md").
Proof.
  assert (E : buildRepoPath Scenario.env (js "/a/b.md")
              = buildRepoPath Scenario.env (js "a/b.md")) by reflexivity.
  split; [exact E|].
  exact (buildRepoPath_injective Scenario.env (js "/a/b.md") (js "a/b.md") E).
Defined.

(** ** Text encoding *)

Section TextEncoding.

Import Base64.

Lemma filter_twice (f : N -> bool) (l : list N) : filter f (filter f l) = filter f l.
Proof.
  induction l as [|x l IH]; [reflexivity|].
  cbn [filter]. destruct (f x) eqn:E; [|exact IH].
  cbn [filter]. now rewrite E, IH.
Qed.

(** The decoder sees its input without the ASCII whitespace. *)
Lemma decode_without_whitespace (data : jstring) :
  decode data = decode (filter (fun c => negb (is_ascii_whitespace c)) data).
Proof. unfold decode. now rewrite filter_twice. Qed.

Lemma toBase64_latin1 (s : jstring) :
  latin1 s = true -> toBase64 workers_runtime s = inr (encode s).
Proof. intros L. unfold toBase64, workers_runtime, rt_btoa, btoa. now rewrite L. Qed.

Lemma toBase64_beyond_latin1 (s : jstring) :
  latin1 s = false -> exists e, toBase64 workers_runtime s = inl e.
Proof.
  intros L. unfold toBase64, workers_runtime, rt_btoa, btoa. rewrite L.
  eexists. reflexivity.
Qed.

Lemma fromBase64_wrapped_encode (s data : jstring) :
  latin1 s = true ->
  filter (fun c => negb (is_ascii_whitespace c)) data = encode s ->
  fromBase64 workers_runtime (Some (JStr data)) = inr s.
Proof.
  intros L F.
  unfold fromBase64, workers_runtime, rt_atob, atob, to_String_val, to_String.
  now rewrite decode_without_whitespace, F, (Base64Facts.decode_encode s L).
Qed.

(** X6: on a runtime with [atob], [fromBase64] ignores line breaks and
    other ASCII whitespace: any text that is the base64 of a Latin-1 string
    [s] once its whitespace is removed decodes to [s]. *)
Theorem fromBase64_ignores_whitespace (s data : jstring) :
  latin1 s = true ->
  filter (fun c => negb (is_ascii_whitespace c)) data = encode s ->
  fromBase64 workers_runtime (Some (JStr data)) = inr s.
Proof. apply fromBase64_wrapped_encode. Qed.

End TextEncoding.

Lemma fromBase64_ignores_whitespace_witness :
  (Base64.latin1 (js "Hello world") = true
   /\ filter (fun c => negb (Base64.is_ascii_whitespace c))
        (js "SGVsbG8g" ++ [10] ++ js "d29ybGQ=" ++ [13; 10])
      = Base64.encode (js "Hello world"))
  /\ fromBase64 workers_runtime
       (Some (JStr (js "SGVsbG8g" ++ [10] ++ js "d29ybGQ=" ++ [13; 10])))
     = inr (js "Hello world").
Proof.
  split; [split; reflexivity|].
  exact (fromBase64_ignores_whitespace (js "Hello world")
           (js "SGVsbG8g" ++ [10] ++ js "d29ybGQ=" ++ [13; 10]) eq_refl eq_refl).
Defined.

(** ** Percent-encoding *)

Module UriFacts.

Ltac divmod := intros; zify; Z.to_euclidean_division_equations; lia.

Lemma hex_value_of_digit (n : N) : n < 16 -> hex_value (hex_digit n) = Some n.
Proof.
  intros H. destruct n as [|p]; [reflexivity|].
  do 4 (destruct p as [p|p|]; try reflexivity); lia.
Qed.

Lemma unreserved_not_percent (c : N) : unreserved c = true -> (c =? percent) = false.
Proof.
  intros U. destruct (N.eqb_spec c percent) as [->|]; [discriminate U|reflexivity].
Qed.

(** What the decoder does with one escaped octet [%XY]. *)
Lemma decode_escape (octets : list N) (need : nat) (b : N) (r : jstring) :
  b < 256 ->
  decode_from (DPercent octets need) (hex_digit (b / 16) :: hex_digit (b mod 16) :: r)
  = match octets with
    | [] =>
        if b <? 128 then emit b (decode_from DIdle r)
        else match utf8_length b with
             | Some n => decode_from (DMore [b] (Nat.pred n)) r
             | None => malformed
             end
    | _ :: _ =>
        match need with
        | 1%nat =>
            match utf8_code_point (octets ++ [b]) with
            | Some cp => emit cp (decode_from DIdle r)
            | None => malformed
            end
        | S need' => decode_from (DMore (octets ++ [b]) need') r
        | O => malformed
        end
    end.
Proof.
  intros Hb. cbn [decode_from].
  rewrite (hex_value_of_digit (b / 16)) by divmod.
  rewrite (hex_value_of_digit (b mod 16)) by divmod.
  replace (b / 16 * 16 + b mod 16) with b by divmod.
  reflexivity.
Qed.

Lemma decode_percent (octets : list N) (need : nat) (b : N) (r : jstring) :
  b < 256 ->
  decode_from (DMore octets need) (escape b ++ r)
  = decode_from (DPercent octets need) (hex_digit (b / 16) :: hex_digit (b mod 16) :: r).
Proof. reflexivity. Qed.

Lemma decode_first (b : N) (r : jstring) :
  decode_from DIdle (escape b ++ r)
  = decode_from (DPercent [] 0) (hex_digit (b / 16) :: hex_digit (b mod 16) :: r).
Proof. reflexivity. Qed.

Lemma decode_idle_percent (r : jstring) :
  decode_from DIdle (percent :: r) = decode_from (DPercent [] 0) r.
Proof. reflexivity. Qed.

Lemma decode_more_percent (octets : list N) (need : nat) (r : jstring) :
  decode_from (DMore octets need) (percent :: r) = decode_from (DPercent octets need) r.
Proof. reflexivity. Qed.

Ltac yes := rewrite (proj2 (N.ltb_lt _ _)) by divmod.
Ltac no := rewrite (proj2 (N.ltb_ge _ _)) by divmod.
Ltac at_most := rewrite (proj2 (N.leb_le _ _)) by divmod.
Ltac beyond := rewrite (proj2 (N.leb_gt _ _)) by divmod.

Lemma scalar_cases (c : N) :
  is_scalar c = true -> c < 55296 \/ (57343 < c /\ c <= 1114111).
Proof.
  unfold is_scalar. intros H. apply orb_true_iff in H as [H|H].
  - left. now apply N.ltb_lt.
  - right. apply andb_true_iff in H as [H1 H2].
    split; [now apply N.ltb_lt|now apply N.leb_le].
Qed.

(** The decoder reads the escaped UTF-8 octets of a scalar value back as
    that scalar value. *)
Lemma decode_escaped_char (c : N) (rest : jstring) :
  is_scalar c = true ->
  decode_from DIdle (flat_map escape (utf8 c) ++ rest) = emit c (decode_from DIdle rest).
Proof.
  intros S. apply scalar_cases in S. unfold utf8.
  destruct (N.ltb_spec c 128) as [H1|H1].
  { cbn [flat_map app escape]. rewrite decode_idle_percent, decode_escape by lia.
    now yes. }
  destruct (N.ltb_spec c 2048) as [H2|H2].
  { cbn [flat_map app escape].
    rewrite decode_idle_percent, decode_escape by divmod.
    no. unfold utf8_length. no. yes. cbn [Nat.pred].
    rewrite decode_more_percent, decode_escape by divmod.
    cbn [app]. unfold utf8_code_point, continuation.
    do 3 at_most. cbn [andb].
    replace ((192 + c / 64 - 192) * 64 + (128 + c mod 64 - 128)) with c by divmod.
    reflexivity. }
  destruct (N.ltb_spec c 65536) as [H3|H3].
  { cbn [flat_map app escape].
    rewrite decode_idle_percent, decode_escape by divmod.
    no. unfold utf8_length. do 2 no. yes. cbn [Nat.pred].
    rewrite decode_more_percent, decode_escape by divmod.
    rewrite decode_more_percent, decode_escape by divmod.
    cbn [app]. unfold utf8_code_point, continuation.
    replace ((224 + c / 4096 - 224) * 4096 + (128 + (c / 64) mod 64 - 128) * 64
             + (128 + c mod 64 - 128)) with c by divmod.
    do 5 at_most. cbn [andb].
    destruct S as [S|[S _]].
    - beyond. reflexivity.
    - at_most. beyond. reflexivity. }
  assert (H4 : c <= 1114111) by (destruct S as [S|[_ S]]; lia).
  cbn [flat_map app escape].
  rewrite decode_idle_percent, decode_escape by divmod.
  no. unfold utf8_length. do 3 no. yes. cbn [Nat.pred].
  rewrite decode_more_percent, decode_escape by divmod.
  rewrite decode_more_percent, decode_escape by divmod.
  rewrite decode_more_percent, decode_escape by divmod.
  cbn [app]. unfold utf8_code_point, continuation.
  replace ((240 + c / 262144 - 240) * 262144 + (128 + (c / 4096) mod 64 - 128) * 4096
           + (128 + (c / 64) mod 64 - 128) * 64 + (128 + c mod 64 - 128))
    with c by divmod.
  do 8 at_most. reflexivity.
Qed.

Lemma decode_encoded_char (c : N) (rest : jstring) :
  is_scalar c = true ->
  decode_from DIdle ((if unreserved c then [c] else flat_map escape (utf8 c)) ++ rest)
  = emit c (decode_from DIdle rest).
Proof.
  intros S. destruct (unreserved c) eqn:U; [|now apply decode_escaped_char].
  cbn [app decode_from]. now rewrite (unreserved_not_percent c U).
Qed.

(** Decoding undoes encoding on every string of scalar values. *)
Lemma decodeURIComponent_encodeURIComponent (s : jstring) :
  forallb is_scalar s = true ->
  decodeURIComponent (encodeURIComponent s) = inr s.
Proof.
  unfold decodeURIComponent, encodeURIComponent.
  induction s as [|c s IH]; [reflexivity|].
  intros H. cbn [forallb] in H. apply andb_true_iff in H as [Hc Hs].
  cbn [flat_map]. now rewrite (decode_encoded_char c _ Hc), (IH Hs).
Qed.

End UriFacts.

(** ** The handlers of the router, one by one *)

Section Handlers.

Variable rt : runtime.
Variable store : backend.

(** Behind the gate a document path is dispatched on the method alone. *)
Lemma route_document (request : Request) (env : Env) (rest docPath : jstring) :
  checkAuth request env = AuthOk ->
  req_pathname request = js "/docs/" ++ rest ->
  decodeURIComponent rest = inr docPath ->
  route rt store request env
  = if JsString.eqb (req_method request) (js "GET") then handle_get rt store env docPath
    else if JsString.eqb (req_method request) (js "PUT")
         then handle_put rt store request env docPath
    else if JsString.eqb (req_method request) (js "DELETE")
         then handle_delete store request env docPath
    else ret (jsonResponse (obj [(js "error", Some (JStr (js "Method not allowed")))]) 405).
Proof.
  intros Hauth Hp Hd. unfold route. rewrite Hauth, Hp.
  change (JsString.eqb (js "/docs/" ++ rest) (js "/")) with false.
  change (JsString.eqb (js "/docs/" ++ rest) (js "/docs")) with false.
  change (startsWith (js "/docs/") (js "/docs/" ++ rest)) with true.
  change (skipn 6 (js "/docs/" ++ rest)) with rest.
  cbn [andb]. rewrite Hd. reflexivity.
Qed.

Lemma fetch_answers (request : Request) (env : Env) (log log' : list call)
      (response : Response) :
  route rt store request env log = (inr response, log') ->
  fetch rt store request env log = (response, log').
Proof. intros R. unfold fetch. now rewrite R. Qed.

Lemma fetch_catches (request : Request) (env : Env) (log log' : list call) (err : error) :
  route rt store request env log = (inl err, log') ->
  fetch rt store request env log = (unexpected_error err, log').
Proof. intros R. unfold fetch. now rewrite R. Qed.

Lemma fetch_log (request : Request) (env : Env) (log : list call) :
  snd (fetch rt store request env log) = snd (route rt store request env log).
Proof.
  unfold fetch. destruct (route rt store request env log) as [[err|response] log'];
    reflexivity.
Qed.

(** The GET handler always answers, after exactly one call. *)
Lemma handle_get_run (env : Env) (docPath : jstring) (log : list call) :
  handle_get rt store env docPath log
  = (inr (get_response rt (store log (get_call env docPath))),
     log ++ [get_call env docPath]).
Proof.
  unfold handle_get, try_catch, bind at 1. rewrite getFile_run. unfold get_response.
  destruct (outcome (store log (get_call env docPath))) as [err|file].
  { unfold get_failure. destruct (status_is_404 err); reflexivity. }
  unfold bind at 1, lift at 1.
  destruct (prop (Some file) (js "type")) as [err|type].
  { unfold get_failure, throw. cbv beta iota.
    destruct (status_is_404 err); reflexivity. }
  cbn [ret]. destruct (is_string type) as [t|]; [|reflexivity].
  destruct (JsString.eqb t (js "file")); [|reflexivity].
  unfold bind, lift.
  destruct (fromBase64 rt (field file (js "content"))) as [err|content];
    [|reflexivity].
  unfold get_failure, throw. cbv beta iota.
  destruct (status_is_404 err); reflexivity.
Qed.

(** The PUT handler, once the body has a string [content]. *)
Lemma handle_put_run (request : Request) (env : Env) (docPath content : jstring)
      (body : json) (log : list call) :
  req_json request = Some body ->
  body <> JNull ->
  is_string (field body (js "content")) = Some content ->
  handle_put rt store request env docPath log
  = match putFile rt store env docPath content
            (is_string (field body (js "message"))) log with
    | (inl err, log') => (inr (put_failure err), log')
    | (inr result, log') => (inr (put_success result), log')
    end.
Proof.
  intros Hj Hnn Hc. unfold handle_put. rewrite Hj.
  unfold bind at 1. rewrite (prop_field _ _ Hnn). cbn [lift ret]. rewrite Hc.
  unfold try_catch. unfold bind at 1.
  destruct (putFile rt store env docPath content _ log) as [[err|result] log'].
  { unfold put_failure. destruct (status_is_404 err); reflexivity. }
  unfold put_success, put_failure.
  destruct result as [| | | | |fields]; try reflexivity.
  unfold bind, lift. cbn [prop field].
  destruct (lookup (js "content") fields) as [[]|];
    destruct (lookup (js "commit") fields) as [[]|]; reflexivity.
Qed.

(** *** Which calls a request can cause *)

Lemma no_call (env : Env) (log : list call) :
  exists calls, log = log ++ calls /\ read_then_write env calls.
Proof. exists []. split; [now rewrite app_nil_r|now left]. Qed.

Lemma one_read (env : Env) (log : list call) (docPath : jstring) :
  exists calls,
    log ++ [get_call env docPath] = log ++ calls /\ read_then_write env calls.
Proof. eexists. split; [reflexivity|]. right. left. eexists. reflexivity. Qed.

Lemma putFile_discipline (env : Env) (docPath content : jstring)
      (commitMessage : option jstring) (log : list call) :
  exists calls,
    snd (putFile rt store env docPath content commitMessage log) = log ++ calls
    /\ read_then_write env calls.
Proof.
  pose proof (putFile_run rt store env docPath content commitMessage log) as R.
  cbv zeta in R. rewrite R. clear R.
  destruct (discovered_sha (store log (get_call env docPath))) as [e|sha];
    [apply one_read|].
  destruct (toBase64 rt content) as [e|encoded]; [apply one_read|].
  eexists. split; [reflexivity|]. right. right.
  do 4 eexists. split; [reflexivity|now left].
Qed.

Lemma deleteFile_discipline (env : Env) (docPath : jstring)
      (commitMessage : option jstring) (log : list call) :
  exists calls,
    snd (deleteFile store env docPath commitMessage log) = log ++ calls
    /\ read_then_write env calls.
Proof.
  pose proof (deleteFile_run store env docPath commitMessage log) as R.
  cbv zeta in R. rewrite R. clear R.
  destruct (outcome (store log (get_call env docPath))) as [e|current];
    [apply one_read|].
  destruct (prop (Some current) (js "sha")) as [e|sha]; [apply one_read|].
  eexists. split; [reflexivity|]. right. right.
  do 4 eexists. split; [reflexivity|now right].
Qed.

Lemma handle_list_log (request : Request) (env : Env) (log : list call) :
  snd (handle_list store request env log)
  = log ++ [list_call env (Some (or_else (req_dir request) []))].
Proof.
  unfold handle_list, bind at 1. rewrite listDocs_run.
  destruct (outcome (store log _)) as [e|res]; [reflexivity|].
  unfold bind, lift. destruct (map_items _); reflexivity.
Qed.

Lemma handle_put_discipline (request : Request) (env : Env) (docPath : jstring)
      (log : list call) :
  exists calls,
    snd (handle_put rt store request env docPath log) = log ++ calls
    /\ read_then_write env calls.
Proof.
  destruct (req_json request) as [body|] eqn:Hj.
  2:{ unfold handle_put. rewrite Hj. apply no_call. }
  destruct body as [| | | | |fields] eqn:Hb;
    try (unfold handle_put; rewrite Hj; apply no_call).
  destruct (is_string (field (JObj fields) (js "content"))) as [content|] eqn:Hc.
  - rewrite (handle_put_run request env docPath content (JObj fields) log Hj)
      by (discriminate || exact Hc).
    destruct (putFile_discipline env docPath content
                (is_string (field (JObj fields) (js "message"))) log) as (calls & E & D).
    exists calls. split; [|exact D]. rewrite <- E.
    destruct (putFile rt store env docPath content _ log) as [[err|result] log'];
      reflexivity.
  - unfold handle_put. rewrite Hj. unfold bind at 1. cbn [prop lift ret].
    rewrite Hc. apply no_call.
Qed.

Lemma handle_delete_discipline (request : Request) (env : Env) (docPath : jstring)
      (log : list call) :
  exists calls,
    snd (handle_delete store request env docPath log) = log ++ calls
    /\ read_then_write env calls.
Proof.
  destruct (req_json request) as [[| | | | |fields]|] eqn:Hj;
    try (destruct (handle_delete_answers store request env docPath log)
           as (response & E & _); [rewrite Hj; discriminate|];
         cbv zeta in E; rewrite E; cbn [snd]; apply deleteFile_discipline).
  unfold handle_delete. rewrite Hj. apply no_call.
Qed.

Lemma route_discipline (request : Request) (env : Env) (log : list call) :
  exists calls,
    snd (route rt store request env log) = log ++ calls /\ read_then_write env calls.
Proof.
  unfold route. destruct (checkAuth request env); [|apply no_call].
  destruct (JsString.eqb (req_pathname request) (js "/")
            && JsString.eqb (req_method request) (js "GET")); [apply no_call|].
  destruct (JsString.eqb (req_pathname request) (js "/docs")
            && JsString.eqb (req_method request) (js "GET")).
  { rewrite handle_list_log. eexists. split; [reflexivity|].
    right. left. eexists. reflexivity. }
  destruct (startsWith (js "/docs/") (req_pathname request)); [|apply no_call].
  unfold bind at 1, lift at 1.
  destruct (decodeURIComponent (skipn 6 (req_pathname request))) as [e|docPath];
    [apply no_call|].
  cbn [ret].
  destruct (JsString.eqb (req_method request) (js "GET")).
  { rewrite handle_get_run. apply one_read. }
  destruct (JsString.eqb (req_method request) (js "PUT"));
    [apply handle_put_discipline|].
  destruct (JsString.eqb (req_method request) (js "DELETE"));
    [apply handle_delete_discipline|apply no_call].
Qed.

End Handlers.

(** ** What a request can do to the backing store *)

Section RouterBehaviour.

Variable rt : runtime.
Variable store : backend.

(** X9: whatever the request, the configuration and the replies of the
    store, one request adds to the log either nothing, or one GET, or one GET
    followed by exactly one PUT or DELETE: the worker never writes before it
    has read, never writes twice and never retries. *)
Theorem fetch_reads_before_it_writes (request : Request) (env : Env) (log : list call) :
  exists calls,
    snd (fetch rt store request env log) = log ++ calls /\ read_then_write env calls.
Proof. rewrite fetch_log. apply route_discipline. Qed.

Lemma contents_url (env : Env) (p suffix : jstring) :
  GITHUB_API_BASE ++ contents_path env p ++ suffix
  = contents_endpoint env ++ encodeURIComponent p ++ suffix.
Proof.
  unfold contents_path, contents_endpoint. now repeat rewrite <- app_assoc.
Qed.

Lemma github_call_bound (env : Env) (method p suffix : jstring) (body : option json) :
  let c := github_call method (contents_path env p ++ suffix) env body in
  startsWith (contents_endpoint env) (c_url c) = true
  /\ In (js "Authorization", js "Bearer " ++ GITHUB_TOKEN env) (c_headers c).
Proof.
  cbv zeta. unfold github_call. cbn [c_url c_headers]. split.
  - rewrite contents_url. apply startsWith_app.
  - unfold request_headers. apply in_or_app. left. now left.
Qed.

(** X10: every call a request causes goes to the contents endpoint of the
    configured repository on [api.github.com] and carries the configured
    GitHub token as its [Authorization] header. *)
Theorem fetch_calls_the_contents_endpoint (request : Request) (env : Env)
        (log : list call) :
  exists calls,
    snd (fetch rt store request env log) = log ++ calls
    /\ Forall (fun c =>
                 startsWith (contents_endpoint env) (c_url c) = true
                 /\ In (js "Authorization", js "Bearer " ++ GITHUB_TOKEN env)
                       (c_headers c))
              calls.
Proof.
  rewrite fetch_log.
  destruct (route_discipline rt store request env log) as (calls & E & D).
  exists calls. split; [exact E|].
  destruct D as [->|[(p & ->)|(p & q & method & body & -> & _)]].
  - constructor.
  - constructor; [|constructor].
    apply (github_call_bound env (js "GET") p
             (js "?ref=" ++ encodeURIComponent (GITHUB_BRANCH env)) None).
  - constructor; [|constructor; [|constructor]].
    + apply (github_call_bound env (js "GET") p
               (js "?ref=" ++ encodeURIComponent (GITHUB_BRANCH env)) None).
    + pose proof (github_call_bound env method q [] (Some body)) as B.
      cbv zeta in B. now rewrite app_nil_r in B.
Qed.

(** X11: a PUT on a document whose body is not JSON, or is a JSON value
    other than [null] without a string [content], is answered 400 and causes
    no call to the store.  (For the body [null] see X23.) *)
Theorem put_requires_string_content (request : Request) (env : Env)
        (docPath : jstring) (log : list call) :
  addresses request env (js "PUT") docPath ->
  (req_json request = None
   \/ exists body, req_json request = Some body /\ body <> JNull
                   /\ is_string (field body (js "content")) = None) ->
  res_status (fst (fetch rt store request env log)) = 400
  /\ snd (fetch rt store request env log) = log.
Proof.
  intros (Hauth & Hm & rest & Hp & Hd) Hbody.
  assert (R : route rt store request env = handle_put rt store request env docPath).
  { rewrite (route_document rt store request env rest docPath Hauth Hp Hd), Hm.
    reflexivity. }
  destruct Hbody as [Hj|(body & Hj & Hnn & Hc)].
  - rewrite (fetch_answers rt store request env log log
               (badRequest (js "Expected JSON body"))); [split; reflexivity|].
    rewrite R. unfold handle_put. now rewrite Hj.
  - rewrite (fetch_answers rt store request env log log
               (badRequest (js "Field 'content' (string) is required")));
      [split; reflexivity|].
    rewrite R. unfold handle_put. rewrite Hj. unfold bind.
    rewrite (prop_field _ _ Hnn). cbn [lift ret]. now rewrite Hc.
Qed.

(** X12: on a document path every method other than GET, PUT and DELETE is
    answered 405 and causes no call to the store. *)
Theorem other_methods_are_not_allowed (request : Request) (env : Env)
        (docPath : jstring) (log : list call) :
  addresses request env (req_method request) docPath ->
  req_method request <> js "GET" ->
  req_method request <> js "PUT" ->
  req_method request <> js "DELETE" ->
  fetch rt store request env log
  = (jsonResponse (obj [(js "error", Some (JStr (js "Method not allowed")))]) 405, log).
Proof.
  intros (Hauth & _ & rest & Hp & Hd) Hg Hu Hx.
  apply fetch_answers.
  rewrite (route_document rt store request env rest docPath Hauth Hp Hd).
  apply eqb_neq in Hg, Hu, Hx. now rewrite Hg, Hu, Hx.
Qed.

(** X13: a request that passes the gate and is neither the health check,
    nor [GET /docs], nor on a path under [/docs/] is answered 404
    [Not found] and causes no call to the store. *)
Theorem unknown_route_is_not_found (request : Request) (env : Env) (log : list call) :
  checkAuth request env = AuthOk ->
  is_health_check request = false ->
  (req_pathname request <> js "/docs" \/ req_method request <> js "GET") ->
  startsWith (js "/docs/") (req_pathname request) = false ->
  fetch rt store request env log = (notFound (js "Not found"), log).
Proof.
  intros Hauth Hh Hl Hs. apply fetch_answers. unfold route. rewrite Hauth, Hs.
  unfold is_health_check in Hh. rewrite Hh.
  assert (L : JsString.eqb (req_pathname request) (js "/docs")
              && JsString.eqb (req_method request) (js "GET") = false).
  { apply andb_false_iff. destruct Hl as [H|H]; [left|right]; now apply eqb_neq. }
  now rewrite L.
Qed.

(** X14: a document path whose percent-escapes are malformed is answered
    500 by the outer handler and causes no call to the store. *)
Theorem malformed_path_is_a_server_error (request : Request) (env : Env)
        (rest : jstring) (err : error) (log : list call) :
  checkAuth request env = AuthOk ->
  req_pathname request = js "/docs/" ++ rest ->
  decodeURIComponent rest = inl err ->
  fetch rt store request env log = (unexpected_error err, log)
  /\ res_status (unexpected_error err) = 500.
Proof.
  intros Hauth Hp Hd. split; [|reflexivity]. apply fetch_catches.
  unfold route. rewrite Hauth, Hp.
  change (JsString.eqb (js "/docs/" ++ rest) (js "/")) with false.
  change (JsString.eqb (js "/docs/" ++ rest) (js "/docs")) with false.
  change (startsWith (js "/docs/") (js "/docs/" ++ rest)) with true.
  change (skipn 6 (js "/docs/" ++ rest)) with rest.
  cbn [andb]. unfold bind. now rewrite Hd.
Qed.

End RouterBehaviour.

(** ** Listing, reading, writing and deleting through the router *)

Section Documents.

Variable rt : runtime.
Variable store : backend.

(** X15: the listing handler has no [catch] of its own: when the listing
    call fails, also with a 404 for a directory that does not exist, the
    request is answered 500 by the outer handler, after that one call. *)
Theorem listing_failure_is_a_server_error (request : Request) (env : Env)
        (err : error) (log : list call) :
  checkAuth request env = AuthOk ->
  req_method request = js "GET" ->
  req_pathname request = js "/docs" ->
  outcome (store log (list_call env (Some (or_else (req_dir request) [])))) = inl err ->
  fetch rt store request env log
  = (unexpected_error err, log ++ [list_call env (Some (or_else (req_dir request) []))])
  /\ res_status (unexpected_error err) = 500.
Proof.
  intros Hauth Hm Hp Ho. split; [|reflexivity]. apply fetch_catches.
  rewrite (route_list rt store request env Hauth Hm Hp).
  unfold handle_list, bind at 1. now rewrite listDocs_run, Ho.
Qed.

(** X16: when the store answers the listing with an array of objects, the
    response lists them in the same order, one entry each, and every entry
    is reduced to its [name], [path] and [type]: no other field of the
    store's answer is passed on. *)
Theorem listing_projects_entries (request : Request) (env : Env)
        (status : N) (entries : list (list (jstring * json))) (log : list call) :
  checkAuth request env = AuthOk ->
  req_method request = js "GET" ->
  req_pathname request = js "/docs" ->
  store log (list_call env (Some (or_else (req_dir request) [])))
  = Http status (JArr (map JObj entries)) ->
  res_ok status = true ->
  fetch rt store request env log
  = (jsonResponse (obj [(js "items", Some (JArr (map listing_entry entries)))]) 200,
     log ++ [list_call env (Some (or_else (req_dir request) []))]).
Proof.
  intros Hauth Hm Hp Hs Hok. apply fetch_answers.
  rewrite (route_list rt store request env Hauth Hm Hp).
  unfold handle_list, bind at 1. rewrite listDocs_run, Hs. unfold outcome.
  rewrite Hok. unfold bind. now rewrite map_items_keeps_path.
Qed.

Lemma route_get (request : Request) (env : Env) (docPath : jstring) :
  addresses request env (js "GET") docPath ->
  route rt store request env = handle_get rt store env docPath.
Proof.
  intros (Hauth & Hm & rest & Hp & Hd).
  now rewrite (route_document rt store request env rest docPath Hauth Hp Hd), Hm.
Qed.

Lemma fetch_get (request : Request) (env : Env) (docPath : jstring) (log : list call) :
  addresses request env (js "GET") docPath ->
  fetch rt store request env log
  = (get_response rt (store log (get_call env docPath)), log ++ [get_call env docPath]).
Proof.
  intros A. apply fetch_answers. rewrite (route_get request env docPath A).
  apply handle_get_run.
Qed.


(** X18: a successful read of something that is not a file (a directory
    listing, or an object whose [type] is not the string [file]) is answered
    400 [Requested path is not a file]. *)
Theorem get_rejects_what_is_not_a_file (request : Request) (env : Env)
        (docPath : jstring) (status : N) (found : json) (log : list call) :
  addresses request env (js "GET") docPath ->
  store log (get_call env docPath) = Http status found ->
  res_ok status = true ->
  found <> JNull ->
  is_string (field found (js "type")) <> Some (js "file") ->
  fetch rt store request env log
  = (badRequest (js "Requested path is not a file"), log ++ [get_call env docPath]).
Proof.
  intros A H Hok Hnn Ht. rewrite (fetch_get request env docPath log A), H.
  unfold get_response, outcome. rewrite Hok, (prop_field _ _ Hnn).
  destruct (is_string (field found (js "type"))) as [t|]; [|reflexivity].
  destruct (JsString.eqb t (js "file")) eqn:E; [|reflexivity].
  apply eqb_eq in E. subst t. contradiction.
Qed.

(** X20: a delete that goes through answers 200 with the logical path of
    the request (the decoded remainder of the URL, not a path of the store)
    and the commit the store reported. *)
Theorem delete_answers_with_the_logical_path (request : Request) (env : Env)
        (docPath : jstring) (status1 status2 : N) (current : json)
        (deleted commit : list (jstring * json)) (log : list call) :
  addresses request env (js "DELETE") docPath ->
  req_json request <> Some JNull ->
  let g := get_call env docPath in
  let d := delete_call env docPath
             (or_else (is_string (field (match req_json request with
                                            | Some b => b
                                            | None => JObj []
                                            end) (js "message")))
                (js "Delete " ++ buildRepoPath env docPath))
             (field current (js "sha")) in
  store log g = Http status1 current -> res_ok status1 = true -> current <> JNull ->
  store (log ++ [g]) d = Http status2 (JObj deleted) -> res_ok status2 = true ->
  lookup (js "commit") deleted = Some (JObj commit) ->
  fetch rt store request env log
  = (jsonResponse
       (obj [ (js "path", Some (JStr docPath));
              (js "commit",
                Some (obj [ (js "sha", lookup (js "sha") commit);
                            (js "message", lookup (js "message") commit) ])) ])
       200,
     log ++ [g; d]).
Proof.
  intros (Hauth & Hm & rest & Hp & Hd) Hbody g d Hg Hok1 Hnn Hdel Hok2 Hc.
  apply fetch_answers.
  rewrite (route_delete rt store request env rest docPath Hauth Hm Hp Hd).
  pose proof (handle_delete_run store request env docPath log Hbody) as R.
  cbv zeta in R. rewrite R. clear R.
  pose proof (deleteFile_run store env docPath
                (is_string (field (match req_json request with
                                   | Some b => b
                                   | None => JObj []
                                   end) (js "message"))) log) as D.
  cbv zeta in D. rewrite D. clear D. fold g. rewrite Hg. unfold outcome at 1.
  rewrite Hok1, (prop_field _ _ Hnn). fold d. rewrite Hdel. unfold outcome.
  rewrite Hok2. cbn [prop field]. rewrite Hc. reflexivity.
Qed.


(** X22: percent-escaping is undone exactly: for every path [p] of Unicode
    scalar values other than [.] and [..], a request whose pathname is
    [/docs/] followed by [encodeURIComponent(p)] addresses the document [p],
    and the one call a GET causes is the read of [p].  ([.] and [..] are left
    out because [encodeURIComponent] leaves dots alone and [new URL] resolves
    a dot segment, so no request has such a pathname.) *)
Theorem escaped_path_reaches_the_store (request : Request) (env : Env)
        (p : jstring) (log : list call) :
  checkAuth request env = AuthOk ->
  req_method request = js "GET" ->
  p <> js "." ->
  p <> js ".." ->
  req_pathname request = js "/docs/" ++ encodeURIComponent p ->
  forallb is_scalar p = true ->
  addresses request env (js "GET") p
  /\ snd (fetch rt store request env log) = log ++ [get_call env p].
Proof.
  intros Hauth Hm _ _ Hp Hs.
  assert (A : addresses request env (js "GET") p).
  { split; [exact Hauth|]. split; [exact Hm|]. eexists. split; [exact Hp|].
    now apply UriFacts.decodeURIComponent_encodeURIComponent. }
  split; [exact A|]. now rewrite (fetch_get request env p log A).
Qed.

(** X23: a PUT or DELETE whose body is the JSON value [null] is not
    treated as a missing body: reading a field of it throws, the outer
    handler answers 500 and no call reaches the store. *)
Theorem null_body_is_a_server_error (request : Request) (env : Env)
        (method docPath : jstring) (log : list call) :
  addresses request env method docPath ->
  method = js "PUT" \/ method = js "DELETE" ->
  req_json request = Some JNull ->
  res_status (fst (fetch rt store request env log)) = 500
  /\ snd (fetch rt store request env log) = log.
Proof.
  intros (Hauth & Hm & rest & Hp & Hd) Hmethod Hj.
  assert (R : exists err, route rt store request env log = (inl err, log)).
  { rewrite (route_document rt store request env rest docPath Hauth Hp Hd), Hm.
    destruct Hmethod as [->| ->].
    - change (JsString.eqb (js "PUT") (js "GET")) with false.
      change (JsString.eqb (js "PUT") (js "PUT")) with true. cbv iota.
      unfold handle_put. rewrite Hj. eexists. reflexivity.
    - change (JsString.eqb (js "DELETE") (js "GET")) with false.
      change (JsString.eqb (js "DELETE") (js "PUT")) with false.
      change (JsString.eqb (js "DELETE") (js "DELETE")) with true. cbv iota.
      unfold handle_delete. rewrite Hj. eexists. reflexivity. }
  destruct R as (err & R).
  rewrite (fetch_catches rt store request env log log err R). split; reflexivity.
Qed.

End Documents.

(** ** Text through the store, on a runtime with [btoa] and [atob] *)

Section TextThroughTheStore.

Import Base64.

Variable store : backend.

(** X5: [fromBase64] undoes [toBase64] on every string whose code points
    are all at most U+00FF. *)
Theorem base64_round_trip_latin1 (s : jstring) :
  latin1 s = true ->
  exists encoded,
    toBase64 workers_runtime s = inr encoded
    /\ fromBase64 workers_runtime (Some (JStr encoded)) = inr s.
Proof.
  intros L. exists (encode s). split; [now apply toBase64_latin1|].
  apply fromBase64_wrapped_encode; [exact L|].
  apply Base64Facts.encode_has_no_whitespace.
Qed.

(** X7: content with a code point above U+00FF is never written: [putFile]
    fails and the discovery read stays its only call, whatever the store
    answers. *)
Theorem putFile_writes_no_text_beyond_latin1 (env : Env) (docPath content : jstring)
        (commitMessage : option jstring) (log : list call) :
  latin1 content = false ->
  (exists err, fst (putFile workers_runtime store env docPath content commitMessage log)
               = inl err)
  /\ snd (putFile workers_runtime store env docPath content commitMessage log)
     = log ++ [get_call env docPath].
Proof.
  intros L. destruct (toBase64_beyond_latin1 content L) as (e & E).
  pose proof (putFile_run workers_runtime store env docPath content commitMessage log) as R.
  cbv zeta in R. rewrite R, E. clear R.
  destruct (discovered_sha (store log (get_call env docPath))) as [e'|sha];
    (split; [eexists; reflexivity|reflexivity]).
Qed.

(** X8: every write [putFile] issues for a Latin-1 text carries, in the
    [content] field of its body, a string that [fromBase64] decodes back to
    that text. *)
Theorem putFile_writes_decodable_content (env : Env) (docPath content : jstring)
        (commitMessage : option jstring) (log : list call) (w : call) :
  latin1 content = true ->
  snd (putFile workers_runtime store env docPath content commitMessage log)
  = log ++ [get_call env docPath; w] ->
  c_method w = js "PUT"
  /\ exists body data,
       c_body w = Some body
       /\ field body (js "content") = Some (JStr data)
       /\ fromBase64 workers_runtime (Some (JStr data)) = inr content.
Proof.
  intros L. pose proof (putFile_run workers_runtime store env docPath content
                          commitMessage log) as R.
  cbv zeta in R. rewrite R, (toBase64_latin1 content L). clear R.
  destruct (discovered_sha (store log (get_call env docPath))) as [e|sha]; cbn [snd].
  { intros E. apply app_inv_head in E. discriminate E. }
  intros E. apply app_inv_head in E. inversion E as [W]. clear E.
  split; [reflexivity|]. eexists. exists (encode content).
  split; [reflexivity|]. split; [reflexivity|].
  apply fromBase64_wrapped_encode; [exact L|].
  apply Base64Facts.encode_has_no_whitespace.
Qed.

(** X19: a GET on a stored file answers 200 with the decoded text: when
    the store returns an object of type [file] whose [content] is, line
    breaks aside, the base64 of a Latin-1 text, the response carries that
    text together with the [path], [name] and [sha] of the store. *)
Theorem get_returns_the_decoded_text (request : Request) (env : Env)
        (docPath text data : jstring) (status : N) (file : list (jstring * json))
        (log : list call) :
  addresses request env (js "GET") docPath ->
  store log (get_call env docPath) = Http status (JObj file) ->
  res_ok status = true ->
  lookup (js "type") file = Some (JStr (js "file")) ->
  lookup (js "content") file = Some (JStr data) ->
  latin1 text = true ->
  filter (fun c => negb (is_ascii_whitespace c)) data = encode text ->
  fetch workers_runtime store request env log
  = (jsonResponse
       (obj [ (js "path", lookup (js "path") file);
              (js "name", lookup (js "name") file);
              (js "sha", lookup (js "sha") file);
              (js "content", Some (JStr text)) ])
       200,
     log ++ [get_call env docPath]).
Proof.
  intros A H Hok Ht Hc L F.
  rewrite (fetch_get workers_runtime store request env docPath log A), H.
  unfold get_response, outcome. rewrite Hok. cbn [prop field]. rewrite Ht.
  cbn [is_string]. change (JsString.eqb (js "file") (js "file")) with true.
  cbv iota. rewrite Hc, (fromBase64_wrapped_encode text data L F). reflexivity.
Qed.

End TextThroughTheStore.

(** ** The further properties on concrete requests *)

Import Cases.

Lemma addresses_test_md (method : jstring) (request : Request) :
  checkAuth request env = AuthOk ->
  req_method request = method ->
  req_pathname request = js "/docs/test.md" ->
  addresses request env method (js "test.md").
Proof.
  intros Hauth Hm Hp. split; [exact Hauth|]. split; [exact Hm|].
  exists (js "test.md"). split; [exact Hp|reflexivity].
Qed.

Lemma base64_round_trip_latin1_witness :
  Base64.latin1 (js "caf" ++ [233]) = true
  /\ exists encoded,
       toBase64 workers_runtime (js "caf" ++ [233]) = inr encoded
       /\ fromBase64 workers_runtime (Some (JStr encoded)) = inr (js "caf" ++ [233]).
Proof.
  split; [reflexivity|].
  exact (base64_round_trip_latin1 (js "caf" ++ [233]) eq_refl).
Defined.

Lemma putFile_writes_no_text_beyond_latin1_witness :
  Base64.latin1 unicode_text = false
  /\ snd (putFile workers_runtime empty_store env (js "test.md") unicode_text None [])
     = [get_call env (js "test.md")].
Proof.
  split; [reflexivity|].
  exact (proj2 (putFile_writes_no_text_beyond_latin1 empty_store env (js "test.md")
                  unicode_text None [] eq_refl)).
Defined.

Lemma putFile_writes_decodable_content_witness :
  Base64.latin1 (js "Hello world") = true
  /\ exists body data,
       c_body (put_call env (js "test.md") (js "Create docs/test.md")
                 (js "SGVsbG8gd29ybGQ=") None) = Some body
       /\ field body (js "content") = Some (JStr data)
       /\ fromBase64 workers_runtime (Some (JStr data)) = inr (js "Hello world").
Proof.
  split; [reflexivity|].
  exact (proj2 (putFile_writes_decodable_content empty_store env (js "test.md")
                  (js "Hello world") None []
                  (put_call env (js "test.md") (js "Create docs/test.md")
                     (js "SGVsbG8gd29ybGQ=") None)
                  eq_refl eq_refl)).
Defined.

Lemma put_requires_string_content_witness :
  addresses put_without_content env (js "PUT") (js "test.md")
  /\ res_status (fst (fetch workers_runtime empty_store put_without_content env [])) = 400
  /\ snd (fetch workers_runtime empty_store put_without_content env []) = [].
Proof.
  assert (A : addresses put_without_content env (js "PUT") (js "test.md"))
    by (apply addresses_test_md; reflexivity).
  split; [exact A|].
  apply (put_requires_string_content workers_runtime empty_store put_without_content
           env (js "test.md") [] A).
  right. eexists. split; [reflexivity|]. split; [discriminate|reflexivity].
Defined.

Lemma other_methods_are_not_allowed_witness :
  (addresses patch_request env (js "PATCH") (js "test.md")
   /\ js "PATCH" <> js "GET" /\ js "PATCH" <> js "PUT" /\ js "PATCH" <> js "DELETE")
  /\ fetch workers_runtime empty_store patch_request env []
     = (jsonResponse (obj [(js "error", Some (JStr (js "Method not allowed")))]) 405, []).
Proof.
  assert (A : addresses patch_request env (js "PATCH") (js "test.md"))
    by (apply addresses_test_md; reflexivity).
  assert (G : js "PATCH" <> js "GET") by discriminate.
  assert (U : js "PATCH" <> js "PUT") by discriminate.
  assert (D : js "PATCH" <> js "DELETE") by discriminate.
  split; [split; [exact A|split; [exact G|split; [exact U|exact D]]]|].
  exact (other_methods_are_not_allowed workers_runtime empty_store patch_request env
           (js "test.md") [] A G U D).
Defined.

Lemma unknown_route_is_not_found_witness :
  (checkAuth health_request env = AuthOk
   /\ startsWith (js "/docs/") (req_pathname health_request) = false)
  /\ fetch workers_runtime empty_store health_request env []
     = (notFound (js "Not found"), []).
Proof.
  split; [split; reflexivity|].
  apply (unknown_route_is_not_found workers_runtime empty_store health_request env []);
    try reflexivity.
  left. discriminate.
Defined.

Lemma malformed_path_is_a_server_error_witness :
  decodeURIComponent (js "100%") = malformed
  /\ res_status (fst (fetch workers_runtime empty_store malformed_request env [])) = 500
  /\ snd (fetch workers_runtime empty_store malformed_request env []) = [].
Proof.
  split; [reflexivity|].
  destruct (malformed_path_is_a_server_error workers_runtime empty_store
              malformed_request env (js "100%") (URIError (js "URI malformed")) []
              eq_refl eq_refl eq_refl) as (E & _).
  rewrite E. split; reflexivity.
Defined.

Lemma listing_failure_is_a_server_error_witness :
  outcome (failing_store 404 (JObj []) [] (list_call env (Some (js "ftl"))))
  = inl (GithubError 404 (js "GitHub API error 404") (JObj []))
  /\ res_status (fst (fetch workers_runtime (failing_store 404 (JObj [])) list_request
                        env [])) = 500
  /\ snd (fetch workers_runtime (failing_store 404 (JObj [])) list_request env [])
     = [list_call env (Some (js "ftl"))].
Proof.
  split; [reflexivity|].
  destruct (listing_failure_is_a_server_error workers_runtime (failing_store 404 (JObj []))
              list_request env (GithubError 404 (js "GitHub API error 404") (JObj [])) []
              eq_refl eq_refl eq_refl eq_refl) as (E & _).
  rewrite E. split; reflexivity.
Defined.

Lemma listing_projects_entries_witness :
  store_with directory_listing [] (list_call env (Some (js "ftl")))
  = Http 200 (JArr (map JObj [ [ (js "type", JStr (js "file"));
                                 (js "path", JStr (js "docs/ftl/canon.md"));
                                 (js "name", JStr (js "canon.md"));
                                 (js "sha", JStr (js "sha-canon")) ] ]))
  /\ fst (fetch workers_runtime (store_with directory_listing) list_request env [])
     = jsonResponse
         (obj [(js "items",
                 Some (JArr [obj [ (js "name", Some (JStr (js "canon.md")));
                                   (js "path", Some (JStr (js "docs/ftl/canon.md")));
                                   (js "type", Some (JStr (js "file"))) ]]))])
         200.
Proof.
  split; [reflexivity|].
  now rewrite (listing_projects_entries workers_runtime (store_with directory_listing)
                 list_request env 200
                 [ [ (js "type", JStr (js "file"));
                     (js "path", JStr (js "docs/ftl/canon.md"));
                     (js "name", JStr (js "canon.md"));
                     (js "sha", JStr (js "sha-canon")) ] ]
                 [] eq_refl eq_refl eq_refl eq_refl eq_refl).
Defined.


Lemma get_rejects_what_is_not_a_file_witness :
  (addresses get_request env (js "GET") (js "test.md")
   /\ is_string (field directory_listing (js "type")) <> Some (js "file"))
  /\ fetch workers_runtime (store_with directory_listing) get_request env []
     = (badRequest (js "Requested path is not a file"), [get_call env (js "test.md")]).
Proof.
  assert (A : addresses get_request env (js "GET") (js "test.md"))
    by (apply addresses_test_md; reflexivity).
  assert (T : is_string (field directory_listing (js "type")) <> Some (js "file"))
    by discriminate.
  split; [split; assumption|].
  refine (get_rejects_what_is_not_a_file workers_runtime (store_with directory_listing)
            get_request env (js "test.md") 200 directory_listing [] A eq_refl eq_refl _ T).
  discriminate.
Defined.

Lemma get_returns_the_decoded_text_witness :
  (addresses get_request env (js "GET") (js "test.md")
   /\ Base64.latin1 (js "Hello world") = true)
  /\ fetch workers_runtime (store_with stored_file) get_request env []
     = (jsonResponse
          (obj [ (js "path", Some (JStr (js "docs/test.md")));
                 (js "name", Some (JStr (js "test.md")));
                 (js "sha", Some (JStr (js "sha-file")));
                 (js "content", Some (JStr (js "Hello world"))) ])
          200,
        [get_call env (js "test.md")]).
Proof.
  assert (A : addresses get_request env (js "GET") (js "test.md"))
    by (apply addresses_test_md; reflexivity).
  split; [split; [exact A|reflexivity]|].
  exact (get_returns_the_decoded_text (store_with stored_file) get_request env
           (js "test.md") (js "Hello world")
           (js "SGVsbG8g" ++ [10] ++ js "d29ybGQ=" ++ [10]) 200
           [ (js "type", JStr (js "file"));
             (js "path", JStr (js "docs/test.md"));
             (js "name", JStr (js "test.md"));
             (js "sha", JStr (js "sha-file"));
             (js "content", JStr (js "SGVsbG8g" ++ [10] ++ js "d29ybGQ=" ++ [10])) ]
           [] A eq_refl eq_refl eq_refl eq_refl eq_refl eq_refl).
Defined.

Lemma delete_answers_with_the_logical_path_witness :
  (addresses delete_request env (js "DELETE") (js "test.md")
   /\ req_json delete_request <> Some JNull)
  /\ fst (fetch workers_runtime (store_with existing_file) delete_request env [])
     = jsonResponse
         (obj [ (js "path", Some (JStr (js "test.md")));
                (js "commit",
                  Some (obj [ (js "sha", Some (JStr (js "commitsha")));
                              (js "message", Some (JStr (js "Delete docs/test.md"))) ])) ])
         200.
Proof.
  assert (A : addresses delete_request env (js "DELETE") (js "test.md"))
    by (apply addresses_test_md; reflexivity).
  assert (B : req_json delete_request <> Some JNull) by discriminate.
  split; [split; assumption|].
  rewrite (delete_answers_with_the_logical_path workers_runtime (store_with existing_file)
             delete_request env (js "test.md") 200 200 existing_file
             [(js "commit", JObj [ (js "sha", JStr (js "commitsha"));
                                   (js "message", JStr (js "Delete docs/test.md")) ])]
             [ (js "sha", JStr (js "commitsha"));
               (js "message", JStr (js "Delete docs/test.md")) ]
             [] A B eq_refl eq_refl);
    [reflexivity|discriminate|reflexivity|reflexivity|reflexivity].
Defined.


Lemma escaped_path_reaches_the_store_witness :
  (req_pathname escaped_request = js "/docs/notes%2F%E6%BC%A2.md"
   /\ forallb is_scalar (js "notes/" ++ [28450] ++ js ".md") = true)
  /\ snd (fetch workers_runtime empty_store escaped_request env [])
     = [get_call env (js "notes/" ++ [28450] ++ js ".md")].
Proof.
  assert (D1 : js "notes/" ++ [28450] ++ js ".md" <> js ".") by discriminate.
  assert (D2 : js "notes/" ++ [28450] ++ js ".md" <> js "..") by discriminate.
  split; [split; reflexivity|].
  exact (proj2 (escaped_path_reaches_the_store workers_runtime empty_store escaped_request
                  env (js "notes/" ++ [28450] ++ js ".md") []
                  eq_refl eq_refl D1 D2 eq_refl eq_refl)).
Defined.

Lemma null_body_is_a_server_error_witness :
  (addresses delete_null_body env (js "DELETE") (js "test.md")
   /\ req_json delete_null_body = Some JNull)
  /\ res_status (fst (fetch workers_runtime (store_with existing_file) delete_null_body
                        env [])) = 500
  /\ snd (fetch workers_runtime (store_with existing_file) delete_null_body env []) = [].
Proof.
  assert (A : addresses delete_null_body env (js "DELETE") (js "test.md"))
    by (apply addresses_test_md; reflexivity).
  split; [split; [exact A|reflexivity]|].
  apply (null_body_is_a_server_error workers_runtime (store_with existing_file)
           delete_null_body env (js "DELETE") (js "test.md") [] A);
    [now right|reflexivity].
Defined.
